(** * OpenReview crawler ([crawl.py]): classification, normalization and
      fault-isolated iteration.

    A shallow embedding of [get_openreview_client], [is_accepted_paper],
    [crawl_iclr_papers_and_reviews], [save_data] and the program entry of
    [crawl.py], the properties of the written specification that concern
    them (C1 to C10), and further properties read off the code (X1 to X20).

    Modelling conventions.
    - Python [str] is [string], a text being its UTF-8 bytes; [str.lower] is
      modelled on the ASCII letters. The ten keywords of [is_accepted_paper]
      are ASCII; the only other code points whose lower-case form has an
      ASCII letter are U+212A (k) and U+0130 (i and a combining dot), and
      neither changes which keywords occur: the one keyword with a k,
      ["desk reject"], contains ["reject"], and no keyword has a combining
      dot.
    - JSON-like Python values are the type [value] (numbers are integers); a
      [dict] is a [gmap string value] (no function below depends on the
      insertion order).
    - The OpenReview platform is a capability [openreview_api] over an
      abstract world [W], threaded explicitly: each remote call returns a
      [result] together with the next world.
    - Failures are instances of [Exception]; [print] and [time.sleep] change
      neither the returned value nor the requests made and are left out. *)

From Stdlib Require Import Ascii String.
From stdpp Require Import gmap strings list fin_maps pretty.

(** ** Python values *)

Local Unset Elimination Schemes.

Inductive value : Type :=
  | VNone
  | VBool (b : bool)
  | VInt (z : Z)
  | VStr (s : string)
  | VList (l : list value)
  | VDict (d : gmap string value).

Local Set Elimination Schemes.

(** [not v]'s operand: Python truthiness. *)
Definition truthy (v : value) : bool :=
  match v with
  | VNone => false
  | VBool b => b
  | VInt z => negb (z =? 0)%Z
  | VStr s => negb (String.eqb s "")
  | VList l => match l with [] => false | _ => true end
  | VDict d => negb (bool_decide (d = ∅))
  end.

(** [str(v)]: the identity on a [str]; the rendering of the other values is
    the parameter [repr]. *)
Definition py_str (repr : value → string) (v : value) : string :=
  match v with
  | VStr s => s
  | _ => repr v
  end.

(** ** Strings *)

Definition ascii_lower (c : ascii) : ascii :=
  let n := nat_of_ascii c in
  if (65 <=? n)%nat && (n <=? 90)%nat then ascii_of_nat (n + 32) else c.

(** [s.lower()] *)
Fixpoint lower (s : string) : string :=
  match s with
  | EmptyString => EmptyString
  | String c s' => String (ascii_lower c) (lower s')
  end.

(** [sub in s] on [str]: [sub] occurs in [s] as a contiguous substring. *)
Fixpoint str_in (sub s : string) : bool :=
  String.prefix sub s ||
  match s with
  | EmptyString => false
  | String _ s' => str_in sub s'
  end.

(** ** [is_accepted_paper] *)

Definition accepted_keywords : list string :=
  ["accept"; "oral"; "poster"; "spotlight"; "notable"; "top"; "best"].

Definition rejected_keywords : list string :=
  ["reject"; "desk reject"; "withdraw"].

(** [for w in ws: if w in text: return ...] reaches its [return] iff some
    word of [ws] occurs in [text]. *)
Definition any_keyword_in (ws : list string) (text : string) : bool :=
  existsb (λ w, str_in w text) ws.

Definition is_accepted_paper (repr : value → string) (decision : value) : bool :=
  if negb (truthy decision) then false
  else
    let decision_lower := lower (py_str repr decision) in
    if any_keyword_in rejected_keywords decision_lower then false
    else if any_keyword_in accepted_keywords decision_lower then true
    else false.

(** ** Dictionaries *)

(** [d.get(key, dflt)] *)
Definition dict_get (d : gmap string value) (key : string) (dflt : value) : value :=
  default dflt (d !! key).

(** [key in d] *)
Definition dict_has (key : string) (d : gmap string value) : bool :=
  bool_decide (is_Some (d !! key)).

(** [any(key in d for key in keys)] *)
Definition any_key_in (keys : list string) (d : gmap string value) : bool :=
  existsb (λ key, dict_has key d) keys.

(** ** Notes, exceptions and the platform capability *)

Record Note : Type := mkNote {
  note_id : string;
  note_forum : option string;        (* [None]: no attribute [forum] *)
  note_invitation : option string;   (* [None]: no attribute [invitation] *)
  note_content : gmap string value
}.

Record exn : Type := Exn { exn_class : string; exn_msg : string }.

Inductive result (A : Type) : Type :=
  | Ok (a : A)
  | Raise (e : exn).
Arguments Ok {A} a.
Arguments Raise {A} e.

Inductive query : Type :=
  | ByInvitation (invitation : string)   (* [get_all_notes(invitation=...)] *)
  | ByForum (forum : string).            (* [get_all_notes(forum=...)] *)

(** The [openreview] package as seen by [crawl.py]: the two client
    constructors and [client.get_all_notes]. *)
Record openreview_api (W C : Type) : Type := {
  OpenReviewClient : W → result C * W;
  Client : W → result C * W;
  get_all_notes : C → query → W → result (list Note) * W
}.
Arguments OpenReviewClient {W C} _ _.
Arguments Client {W C} _ _.
Arguments get_all_notes {W C} _ _ _ _.

(** ** Computations that call the platform and may raise *)

Definition M (W A : Type) : Type := W → result A * W.

Definition ret {W A} (a : A) : M W A := λ w, (Ok a, w).

Definition bind {W A B} (m : M W A) (k : A → M W B) : M W B :=
  λ w, match m w with
       | (Ok a, w') => k a w'
       | (Raise e, w') => (Raise e, w')
       end.

(** [try: m  except: h] *)
Definition try_except {W A} (m : M W A) (h : exn → M W A) : M W A :=
  λ w, match m w with
       | (Ok a, w') => (Ok a, w')
       | (Raise e, w') => h e w'
       end.

Notation "x <- m ;; k" := (bind m (λ x, k))
  (at level 100, m at next level, right associativity, only parsing).

(** ** Records built by the crawl *)

Record review_data : Type := mkReview {
  rv_review_id : string;
  rv_invitation : string;
  rv_rating : value;
  rv_confidence : value;
  rv_summary : value;
  rv_soundness : value;
  rv_presentation : value;
  rv_contribution : value;
  rv_strengths : value;
  rv_weaknesses : value;
  rv_questions : value;
  rv_limitations : value;
  rv_review_text : value
}.

Record meta_review : Type := mkMeta {
  mr_id : string;
  mr_decision : value;
  mr_content : gmap string value
}.

Record comment_data : Type := mkComment {
  cm_note_id : string;
  cm_invitation : string;
  cm_comment : value;
  cm_content : gmap string value
}.

Record paper_data : Type := mkPaper {
  pd_paper_id : string;
  pd_forum_id : string;
  pd_title : string;
  pd_abstract : value;
  pd_authors : value;
  pd_keywords : value;
  pd_pdf_url : string;
  pd_forum_url : string;
  pd_reviews : list review_data;
  pd_num_reviews : nat;
  pd_meta_reviews : list meta_review;
  pd_decision : value;
  pd_comments : list comment_data
}.

(** The four locals of the note loop: [reviews], [comments],
    [meta_reviews], [decision]. *)
Record note_acc : Type := mkAcc {
  reviews : list review_data;
  comments : list comment_data;
  meta_reviews : list meta_review;
  decision : value
}.

(** ** The crawl *)

Section crawl.
Context {W C : Type}.
Variable api : openreview_api W C.
Variable repr : value → string.

(** [get_openreview_client]: API v2 first, API v1 when that raises. *)
Definition get_openreview_client : M W (C * string) :=
  try_except
    (client <- OpenReviewClient api ;; ret (client, "v2"))
    (λ _, client <- Client api ;; ret (client, "v1")).

(** The two ways [client.get_all_notes] is called: wrapped in [list] for
    API v2, as it is for API v1. Both give the list of notes. *)
Definition fetch_notes (client : C) (api_version : string) (q : query)
  : M W (list Note) :=
  if String.eqb api_version "v2" then get_all_notes api client q
  else get_all_notes api client q.

(** The candidate invitation patterns, in the order they are tried. *)
Definition patterns (year : Z) : list string :=
  [ "ICLR.cc/" +:+ pretty year +:+ "/Conference/-/Submission";
    "ICLR.cc/" +:+ pretty year +:+ "/Conference/-/Blind_Submission" ].

(** [for pattern in patterns: try: ... except Exception: ...], with the
    locals [submissions] and [used_pattern] carried along. [break] is the
    branch that returns without looking at the remaining patterns. *)
Fixpoint resolve_patterns (client : C) (api_version : string)
    (pats : list string) (submissions : list Note) (used_pattern : option string)
  : M W (list Note * option string) :=
  match pats with
  | [] => ret (submissions, used_pattern)
  | pattern :: rest =>
      r <- try_except
             (subs <- fetch_notes client api_version (ByInvitation pattern) ;;
              ret (Some subs))
             (λ _, ret None) ;;
      match r with
      | Some subs =>
          match subs with
          | _ :: _ => ret (subs, Some pattern)
          | [] => resolve_patterns client api_version rest subs used_pattern
          end
      | None =>
          resolve_patterns client api_version rest submissions used_pattern
      end
  end.

(** [paper.forum if hasattr(paper, 'forum') else paper.id] *)
Definition forum_of (paper : Note) : string :=
  default (note_id paper) (note_forum paper).

(** The local [title] before [str(title)]. *)
Definition paper_title (paper : Note) : value :=
  let title := dict_get (note_content paper) "title" (VDict ∅) in
  match title with
  | VDict d => dict_get d "value" (VStr "No title")
  | _ => title
  end.

Definition get_value (content_dict : gmap string value) (key : string) : value :=
  let val := dict_get content_dict key (VStr "") in
  match val with
  | VDict d => dict_get d "value" (VStr "")
  | _ => val
  end.

(** One value of [extract_content]: an envelope with a [value] key gives
    its inner value, anything else is kept. *)
Definition unwrap (val : value) : value :=
  match val with
  | VDict d => match d !! "value" with Some inner => inner | None => val end
  | _ => val
  end.

(** [extract_content]: a new dict filled key by key. *)
Definition extract_content (note : Note) : gmap string value :=
  map_fold (λ key val content, <[key := unwrap val]> content) ∅ (note_content note).

(** [note.invitation if hasattr(note, 'invitation') else ''] *)
Definition invitation_of (note : Note) : string :=
  default "" (note_invitation note).

Definition make_review (note : Note) (note_content : gmap string value) : review_data :=
  {| rv_review_id := note_id note;
     rv_invitation := invitation_of note;
     rv_rating := dict_get note_content "rating"
                    (dict_get note_content "recommendation" (VStr ""));
     rv_confidence := dict_get note_content "confidence" (VStr "");
     rv_summary := dict_get note_content "summary" (VStr "");
     rv_soundness := dict_get note_content "soundness" (VStr "");
     rv_presentation := dict_get note_content "presentation" (VStr "");
     rv_contribution := dict_get note_content "contribution" (VStr "");
     rv_strengths := dict_get note_content "strengths" (VStr "");
     rv_weaknesses := dict_get note_content "weaknesses" (VStr "");
     rv_questions := dict_get note_content "questions" (VStr "");
     rv_limitations := dict_get note_content "limitations" (VStr "");
     rv_review_text := dict_get note_content "review" (VStr "") |}.

Definition make_meta_review (note : Note) (decision : value)
    (note_content : gmap string value) : meta_review :=
  {| mr_id := note_id note; mr_decision := decision; mr_content := note_content |}.

Definition make_comment (note : Note) (note_content : gmap string value) : comment_data :=
  {| cm_note_id := note_id note;
     cm_invitation := invitation_of note;
     cm_comment := dict_get note_content "comment"
                     (dict_get note_content "rebuttal" (VStr ""));
     cm_content := note_content |}.

(** The three tests of the [if]/[elif] chain. *)
Definition looks_like_review (c : gmap string value) : bool :=
  any_key_in ["rating"; "confidence"; "review"; "recommendation"] c.
Definition looks_like_meta_review (c : gmap string value) : bool :=
  any_key_in ["decision"; "recommendation"] c && negb (dict_has "rating" c).
Definition looks_like_comment (c : gmap string value) : bool :=
  any_key_in ["comment"; "rebuttal"] c.

(** The body of [for note in notes]. *)
Definition note_step (paper : Note) (acc : note_acc) (note : Note) : note_acc :=
  if String.eqb (note_id note) (note_id paper) then acc  (* continue *)
  else
    let note_content := extract_content note in
    if looks_like_review note_content then
      {| reviews := reviews acc ++ [make_review note note_content];
         comments := comments acc;
         meta_reviews := meta_reviews acc;
         decision := decision acc |}
    else if looks_like_meta_review note_content then
      let decision := dict_get note_content "decision"
                        (dict_get note_content "recommendation" (VStr "")) in
      {| reviews := reviews acc;
         comments := comments acc;
         meta_reviews := meta_reviews acc ++ [make_meta_review note decision note_content];
         decision := decision |}
    else if looks_like_comment note_content then
      {| reviews := reviews acc;
         comments := comments acc ++ [make_comment note note_content];
         meta_reviews := meta_reviews acc;
         decision := decision acc |}
    else acc.

Definition empty_acc : note_acc :=
  {| reviews := []; comments := []; meta_reviews := []; decision := VNone |}.

Definition process_notes (paper : Note) (notes : list Note) : note_acc :=
  fold_left (note_step paper) notes empty_acc.

(** [paper_data] once the [try] block has run to its end. *)
Definition paper_record (paper : Note) (acc : note_acc) : paper_data :=
  {| pd_paper_id := note_id paper;
     pd_forum_id := forum_of paper;
     pd_title := py_str repr (paper_title paper);
     pd_abstract := get_value (note_content paper) "abstract";
     pd_authors := get_value (note_content paper) "authors";
     pd_keywords := get_value (note_content paper) "keywords";
     pd_pdf_url := "https://openreview.net/pdf?id=" +:+ forum_of paper;
     pd_forum_url := "https://openreview.net/forum?id=" +:+ forum_of paper;
     pd_reviews := reviews acc;
     pd_num_reviews := length (reviews acc);
     pd_meta_reviews := meta_reviews acc;
     pd_decision := decision acc;
     pd_comments := comments acc |}.

(** [paper_data] as the [except] block leaves it. *)
Definition failed_record (paper : Note) : paper_data :=
  {| pd_paper_id := note_id paper;
     pd_forum_id := forum_of paper;
     pd_title := py_str repr (paper_title paper);
     pd_abstract := get_value (note_content paper) "abstract";
     pd_authors := get_value (note_content paper) "authors";
     pd_keywords := get_value (note_content paper) "keywords";
     pd_pdf_url := "https://openreview.net/pdf?id=" +:+ forum_of paper;
     pd_forum_url := "https://openreview.net/forum?id=" +:+ forum_of paper;
     pd_reviews := [];
     pd_num_reviews := 0;
     pd_meta_reviews := [];
     pd_decision := VNone;
     pd_comments := [] |}.

(** The [try]/[except Exception] around the forum fetch and the note loop. *)
Definition fetch_paper (client : C) (api_version : string) (paper : Note)
  : M W paper_data :=
  try_except
    (notes <- fetch_notes client api_version (ByForum (forum_of paper)) ;;
     ret (paper_record paper (process_notes paper notes)))
    (λ _, ret (failed_record paper)).

(** The accepted-only filter at the end of the paper loop's body. *)
Definition keep_paper (accepted_only : bool) (pd : paper_data) : bool :=
  if accepted_only then is_accepted_paper repr (pd_decision pd) else true.

(** [for i, paper in enumerate(submissions, 1)], with [all_data] carried
    along. *)
Fixpoint crawl_papers (client : C) (api_version : string) (accepted_only : bool)
    (submissions : list Note) (all_data : list paper_data)
  : M W (list paper_data) :=
  match submissions with
  | [] => ret all_data
  | paper :: rest =>
      pd <- fetch_paper client api_version paper ;;
      crawl_papers client api_version accepted_only rest
        (if keep_paper accepted_only pd then all_data ++ [pd] else all_data)
  end.

Definition crawl_iclr_papers_and_reviews (year : Z) (accepted_only : bool)
  : M W (list paper_data) :=
  cv <- get_openreview_client ;;
  let '(client, api_version) := cv in
  su <- resolve_patterns client api_version (patterns year) [] None ;;
  let '(submissions, used_pattern) := su in
  match submissions with
  | [] => ret []
  | _ :: _ => crawl_papers client api_version accepted_only submissions []
  end.
End crawl.

(** ** A scripted platform, for running the crawl on concrete inputs *)

Module Scripted.
(** The world is the number of requests made so far; the answers are
    fixed tables indexed by invitation and by forum. *)
Record script : Type := mkScript {
  v2_login : result unit;
  v1_login : result unit;
  by_invitation : list (string * result (list Note));
  by_forum : list (string * result (list Note))
}.

Fixpoint answer (key : string) (table : list (string * result (list Note)))
  : result (list Note) :=
  match table with
  | [] => Ok []
  | (k, r) :: table' => if String.eqb k key then r else answer key table'
  end.

Definition login (r : result unit) (tag : string) : result string :=
  match r with Ok _ => Ok tag | Raise e => Raise e end.

Definition platform (s : script) : openreview_api nat string :=
  {| OpenReviewClient := λ w, (login (v2_login s) "api2", S w);
     Client := λ w, (login (v1_login s) "api1", S w);
     get_all_notes := λ _ q w,
       (match q with
        | ByInvitation i => answer i (by_invitation s)
        | ByForum f => answer f (by_forum s)
        end, S w) |}.

Definition no_repr (v : value) : string := "".
End Scripted.

(** ** Vocabulary of the specification and concrete data *)

(** The specification's reading of a match: some contiguous part of the
    text equals the keyword up to the case of its letters. *)
Definition contains_ci (kw text : string) : Prop :=
  ∃ pre mid post, text = pre +:+ mid +:+ post ∧ lower mid = lower kw.

Definition mentions (kws : list string) (text : string) : Prop :=
  ∃ kw, kw ∈ kws ∧ contains_ci kw text.

(** A value wrapped in the envelope of the newer API generation. *)
Definition is_envelope (val : value) : Prop :=
  ∃ d inner, val = VDict d ∧ d !! "value" = Some inner.

(** A content mapping none of whose values is an envelope. *)
Definition flat (content : gmap string value) : Prop :=
  ∀ key val, content !! key = Some val → ¬ is_envelope val.

Definition with_content (note : Note) (content : gmap string value) : Note :=
  {| note_id := note_id note; note_forum := note_forum note;
     note_invitation := note_invitation note; note_content := content |}.

Definition flat_note : Note :=
  mkNote "n1" None None {[ "rating" := VStr "8: Accept"; "summary" := VStr "ok" ]}.

Inductive category : Type := Review | MetaReview | Comment | Unclassified.

#[global] Instance category_eq_dec : EqDecision category.
Proof. solve_decision. Defined.

(** The category the [if]/[elif] chain of the note loop picks for a
    normalized content. *)
Definition classify (c : gmap string value) : category :=
  if looks_like_review c then Review
  else if looks_like_meta_review c then MetaReview
  else if looks_like_comment c then Comment
  else Unclassified.

(** The decision string a meta-review note carries. *)
Definition note_decision (note : Note) : value :=
  dict_get (extract_content note) "decision"
    (dict_get (extract_content note) "recommendation" (VStr "")).

(** The notes of a forum the loop classifies as [cat] for [paper]. *)
Definition classified_as (paper : Note) (cat : category) (note : Note) : bool :=
  negb (String.eqb (note_id note) (note_id paper)) &&
  bool_decide (classify (extract_content note) = cat).

Definition paper_A : Note :=
  mkNote "A" (Some "A") (Some "ICLR.cc/2024/Conference/-/Submission")
    {[ "title" := VDict {[ "value" := VStr "Paper A" ]} ]}.

(** A note with both [rating] and [decision]: rule 1 wins. *)
Definition rated_decision_note : Note :=
  mkNote "r1" (Some "A") None
    {[ "rating" := VDict {[ "value" := VStr "8: accept" ]};
       "decision" := VStr "Accept (Poster)";
       "comment" := VStr "fine" ]}.

Definition recommendation_note : Note :=
  mkNote "r2" (Some "A") None
    {[ "recommendation" := VDict {[ "value" := VStr "6: marginally above" ]};
       "review" := VStr "Solid work." ]}.

Definition notes_seen (r : result (list Note)) : list Note :=
  match r with Ok notes => notes | Raise _ => [] end.

(** The failure kind the specification names for an exhausted negotiation:
    Python's [ConnectionError] and its built-in subclasses. *)
Definition ConnectionError_kind (e : exn) : Prop :=
  exn_class e ∈ ["ConnectionError"; "ConnectionAbortedError";
                 "ConnectionRefusedError"; "ConnectionResetError";
                 "BrokenPipeError"].

(** Pattern resolution as the specification words it: the candidates are
    tried in order; one that raises and one that answers with no submission
    both hand over to the next candidate; the first that answers with
    submissions is used; with no candidate left nothing is found. *)
Inductive resolution {W C : Type} (api : openreview_api W C) (client : C)
    (api_version : string)
  : list string → W → list Note → option string → W → Prop :=
  | resolution_exhausted w :
      resolution api client api_version [] w [] None w
  | resolution_raises pattern rest w e w1 subs used w2 :
      fetch_notes api client api_version (ByInvitation pattern) w = (Raise e, w1) →
      resolution api client api_version rest w1 subs used w2 →
      resolution api client api_version (pattern :: rest) w subs used w2
  | resolution_empty pattern rest w w1 subs used w2 :
      fetch_notes api client api_version (ByInvitation pattern) w = (Ok [], w1) →
      resolution api client api_version rest w1 subs used w2 →
      resolution api client api_version (pattern :: rest) w subs used w2
  | resolution_found pattern rest w subs w1 :
      fetch_notes api client api_version (ByInvitation pattern) w = (Ok subs, w1) →
      subs ≠ [] →
      resolution api client api_version (pattern :: rest) w subs (Some pattern) w1.

Definition paper_B : Note :=
  mkNote "B" (Some "B") (Some "ICLR.cc/2024/Conference/-/Submission")
    {[ "title" := VDict {[ "value" := VStr "Paper B" ]} ]}.

Definition meta_A : Note :=
  mkNote "mA" (Some "A") None
    {[ "decision" := VDict {[ "value" := VStr "Accept (Poster)" ]} ]}.

Definition meta_B : Note :=
  mkNote "mB" (Some "B") None
    {[ "decision" := VDict {[ "value" := VStr "Reject" ]} ]}.

(** Two submissions; A's only meta-review accepts, B's rejects. *)
Definition accept_reject_script : Scripted.script :=
  {| Scripted.v2_login := Ok tt;
     Scripted.v1_login := Ok tt;
     Scripted.by_invitation :=
       [ ("ICLR.cc/2024/Conference/-/Submission", Ok [paper_A; paper_B]) ];
     Scripted.by_forum :=
       [ ("A", Ok [paper_A; meta_A]); ("B", Ok [paper_B; meta_B]) ] |}.

Definition record_A : paper_data :=
  {| pd_paper_id := "A";
     pd_forum_id := "A";
     pd_title := "Paper A";
     pd_abstract := VStr "";
     pd_authors := VStr "";
     pd_keywords := VStr "";
     pd_pdf_url := "https://openreview.net/pdf?id=A";
     pd_forum_url := "https://openreview.net/forum?id=A";
     pd_reviews := [];
     pd_num_reviews := 0;
     pd_meta_reviews :=
       [ {| mr_id := "mA";
            mr_decision := VStr "Accept (Poster)";
            mr_content := {[ "decision" := VStr "Accept (Poster)" ]} |} ];
     pd_decision := VStr "Accept (Poster)";
     pd_comments := [] |}.

Definition fetch_error : exn := Exn "OpenReviewException" "Forum not found".

(** One submission whose forum cannot be fetched. *)
Definition failing_forum_script : Scripted.script :=
  {| Scripted.v2_login := Ok tt;
     Scripted.v1_login := Ok tt;
     Scripted.by_invitation :=
       [ ("ICLR.cc/2024/Conference/-/Submission", Ok [paper_A]) ];
     Scripted.by_forum := [ ("A", Raise fetch_error) ] |}.

Definition login_error : exn :=
  Exn "OpenReviewException" "Invalid username or password".

(** Both constructors refuse the credentials. *)
Definition no_login_script : Scripted.script :=
  {| Scripted.v2_login := Raise login_error;
     Scripted.v1_login := Raise login_error;
     Scripted.by_invitation := [];
     Scripted.by_forum := [] |}.

Definition paper_C : Note :=
  mkNote "C" None None {[ "title" := VStr "Paper C" ]}.

(** The first pattern raises, the second answers with three submissions. *)
Definition blind_submission_script : Scripted.script :=
  {| Scripted.v2_login := Raise login_error;
     Scripted.v1_login := Ok tt;
     Scripted.by_invitation :=
       [ ("ICLR.cc/2023/Conference/-/Submission", Raise fetch_error);
         ("ICLR.cc/2023/Conference/-/Blind_Submission",
          Ok [paper_A; paper_B; paper_C]) ];
     Scripted.by_forum := [] |}.

(** ** [save_data] and the program entry *)

(** [s.split(':')[0]]: the text before the first colon. *)
Fixpoint before_colon (s : string) : string :=
  match s with
  | EmptyString => EmptyString
  | String c s' =>
      if Ascii.eqb c ":" then EmptyString else String c (before_colon s')
  end.

(** [sep.join(parts)] *)
Fixpoint join (sep : string) (parts : list string) : string :=
  match parts with
  | [] => ""
  | part :: parts' =>
      match parts' with
      | [] => part
      | _ :: _ => part +:+ sep +:+ join sep parts'
      end
  end.

(** What [save_data] computes. Python floats are a parameter: [float] is
    their type, [float_of_stripped s] is [float(s.strip())] ([None] when it
    raises) and [round_mean xs] is [round(sum(xs) / len(xs), 2)]. A written
    file is its name with what was dumped into it, and the returned
    [DataFrame] is the list of rows it is built from; a failure of the file
    system is not modelled. *)
Section save_data.
Variable repr : value → string.
Variable float : Type.
Variable float_of_stripped : string → option float.
Variable round_mean : list float → float.

Record csv_row : Type := mkRow {
  cr_paper_id : string;
  cr_title : string;
  cr_authors : string;
  cr_num_reviews : nat;
  cr_avg_rating : option float;
  cr_decision : value;
  cr_keywords : string;
  cr_forum_url : string
}.

Inductive file_content : Type :=
  | JsonDump (data : list paper_data)
  | CsvTable (rows : list csv_row).

(** The number a review contributes to [ratings], if any: the body of
    [for review in paper.get('reviews', [])]. *)
Definition rating_number (review : review_data) : option float :=
  let rating_str := py_str repr (rv_rating review) in
  if String.eqb rating_str "" then None
  else float_of_stripped (before_colon rating_str).

(** The list [ratings] once the review loop has run. *)
Definition paper_ratings (reviews : list review_data) : list float :=
  fold_left
    (λ ratings review,
       match rating_number review with
       | Some rating_num => ratings ++ [rating_num]
       | None => ratings
       end)
    reviews [].

Definition avg_rating (reviews : list review_data) : option float :=
  match paper_ratings reviews with
  | [] => None
  | ratings => Some (round_mean ratings)
  end.

(** [', '.join([str(a) for a in v])] for a list, [str(v)] otherwise: the
    columns [authors] and [keywords]. *)
Definition comma_joined (v : value) : string :=
  match v with
  | VList l => join ", " (map (py_str repr) l)
  | _ => py_str repr v
  end.

Definition csv_row_of (paper : paper_data) : csv_row :=
  {| cr_paper_id := pd_paper_id paper;
     cr_title := pd_title paper;
     cr_authors := comma_joined (pd_authors paper);
     cr_num_reviews := pd_num_reviews paper;
     cr_avg_rating := avg_rating (pd_reviews paper);
     cr_decision := pd_decision paper;
     cr_keywords := comma_joined (pd_keywords paper);
     cr_forum_url := pd_forum_url paper |}.

Definition json_filename (year : Z) (accepted_only : bool) : string :=
  "iclr_" +:+ pretty year +:+ "_papers_reviews" +:+
  (if accepted_only then "_accepted" else "") +:+ ".json".

Definition csv_filename (year : Z) (accepted_only : bool) : string :=
  "iclr_" +:+ pretty year +:+ "_papers_summary" +:+
  (if accepted_only then "_accepted" else "") +:+ ".csv".

(** [save_data]: the files written, in the order they are written, and the
    value returned. *)
Definition save_data (data : list paper_data) (year : Z) (accepted_only : bool)
  : list (string * file_content) * option (list csv_row) :=
  match data with
  | [] => ([], None)
  | _ :: _ =>
      let csv_data :=
        fold_left (λ csv_data paper, csv_data ++ [csv_row_of paper]) data [] in
      ([ (json_filename year accepted_only, JsonDump data);
         (csv_filename year accepted_only, CsvTable csv_data) ],
       Some csv_data)
  end.

(** The [__main__] block up to the statistics it prints. *)
Definition YEAR : Z := 2024.
Definition ACCEPTED_ONLY : bool := true.

Inductive run_outcome : Type :=
  | NoData                                   (* [exit(1)] *)
  | Saved (files : list (string * file_content)) (df : option (list csv_row)).

Definition main {W C : Type} (api : openreview_api W C) : M W run_outcome :=
  data <- crawl_iclr_papers_and_reviews api repr YEAR ACCEPTED_ONLY ;;
  match data with
  | [] => ret NoData
  | _ :: _ =>
      let '(files, df) := save_data data YEAR ACCEPTED_ONLY in
      ret (Saved files df)
  end.
End save_data.

(** ** Further vocabulary *)

(** What every record of the output satisfies. *)
Definition record_consistent (pd : paper_data) : Prop :=
  pd_num_reviews pd = length (pd_reviews pd) ∧
  pd_pdf_url pd = "https://openreview.net/pdf?id=" +:+ pd_forum_id pd ∧
  pd_forum_url pd = "https://openreview.net/forum?id=" +:+ pd_forum_id pd ∧
  pd_decision pd =
    match last (pd_meta_reviews pd) with
    | Some m => mr_decision m
    | None => VNone
    end.

(** The seven keys the note loop looks for. *)
Definition known_keys : list string :=
  ["rating"; "confidence"; "review"; "recommendation"; "decision";
   "comment"; "rebuttal"].

Definition rebuttal_note : Note :=
  mkNote "c1" (Some "A") None
    {[ "rebuttal" := VDict {[ "value" := VStr "We disagree." ]} ]}.

Definition signature_note : Note :=
  mkNote "s1" (Some "A") None {[ "signatures" := VList [VStr "Reviewer 1"] ]}.

Definition untitled_paper : Note := mkNote "U" None None ∅.

(** A submission whose [abstract] is a mapping without a [value] key. *)
Definition odd_abstract_paper : Note :=
  mkNote "O" None None {[ "abstract" := VDict {[ "text" := VStr "..." ]} ]}.

Definition weak_accept_review : review_data :=
  make_review (mkNote "r3" None None {[ "rating" := VStr "6: Weak Accept" ]})
    {[ "rating" := VStr "6: Weak Accept" ]}.

(** The characters of a string all satisfy [P]. *)
Fixpoint all_chars (P : ascii → bool) (s : string) : bool :=
  match s with
  | EmptyString => true
  | String c s' => P c && all_chars P s'
  end.

(** A decimal digit or the minus sign: what [str] of an [int] is made of. *)
Definition int_char (c : ascii) : bool :=
  let n := nat_of_ascii c in
  ((48 <=? n)%nat && (n <=? 57)%nat) || (n =? 45)%nat.

(** A toy float: whole numbers written with one digit. *)
Definition digit_of_stripped (s : string) : option nat :=
  match s with
  | String c EmptyString =>
      let n := nat_of_ascii c in
      if (48 <=? n)%nat && (n <=? 57)%nat then Some (n - 48) else None
  | _ => None
  end.

Definition floor_mean (xs : list nat) : nat := foldr plus 0 xs / length xs.

(** ** Substrings and lower-casing *)

Lemma append_cons (a : ascii) (p q : string) :
  String a p +:+ q = String a (p +:+ q).
Proof. reflexivity. Qed.

Lemma prefix_iff (p s : string) :
  String.prefix p s = true ↔ ∃ post, s = p +:+ post.
Proof.
  revert s. induction p as [|a p IH]; intros s.
  - split; [intros _; exists s; reflexivity | by destruct s].
  - destruct s as [|b s]; simpl.
    + split; [discriminate | intros [post Hpost]; discriminate].
    + setoid_rewrite append_cons.
      destruct (Ascii.ascii_dec a b) as [->|Hab].
      * rewrite IH. split; intros [post Hpost]; exists post; congruence.
      * split; [done | intros [post Hpost]; congruence].
Qed.

Lemma str_in_iff (sub s : string) :
  str_in sub s = true ↔ ∃ pre post, s = pre +:+ sub +:+ post.
Proof.
  induction s as [|b s IH]; cbn [str_in]; rewrite orb_true_iff, prefix_iff.
  - split.
    + intros [[post Hpost]|?]; [|done]. by exists "", post.
    + intros (pre & post & H). left.
      destruct pre; [by exists post | discriminate].
  - rewrite IH. split.
    + intros [[post Hpost]|(pre & post & Hs)].
      * by exists "", post.
      * exists (String b pre), post. by rewrite append_cons, Hs.
    + intros (pre & post & H). destruct pre as [|c pre].
      * left. by exists post.
      * right. exists pre, post. rewrite append_cons in H. congruence.
Qed.

Lemma lower_app (a b : string) : lower (a +:+ b) = lower a +:+ lower b.
Proof.
  induction a as [|c a IH]; [done|].
  rewrite append_cons. simpl. by rewrite IH.
Qed.

Lemma lower_app_inv (s a b : string) :
  lower s = a +:+ b → ∃ a' b', s = a' +:+ b' ∧ lower a' = a ∧ lower b' = b.
Proof.
  revert s. induction a as [|c a IH]; intros s H.
  - by exists "", s.
  - destruct s as [|d s]; [discriminate|].
    rewrite append_cons in H. simpl in H.
    injection H as Hc Hs. destruct (IH _ Hs) as (a' & b' & -> & Ha & Hb).
    exists (String d a'), b'. simpl. by rewrite Hc, Ha.
Qed.

Lemma str_in_lower (kw text : string) :
  str_in (lower kw) (lower text) = true ↔ contains_ci kw text.
Proof.
  rewrite str_in_iff. split.
  - intros (pre & post & H).
    apply lower_app_inv in H as (pre' & rest & -> & _ & H).
    apply lower_app_inv in H as (mid & post' & -> & Hmid & _).
    by exists pre', mid, post'.
  - intros (pre & mid & post & -> & Hmid).
    exists (lower pre), (lower post). by rewrite !lower_app, Hmid.
Qed.

Lemma any_keyword_in_lower (kws : list string) (text : string) :
  Forall (λ kw, lower kw = kw) kws →
  any_keyword_in kws (lower text) = true ↔ mentions kws text.
Proof.
  intros Hkws. unfold any_keyword_in, mentions. rewrite existsb_exists.
  split.
  - intros (kw & Hin & Hkw). exists kw. apply list_elem_of_In in Hin.
    split; [done|]. apply str_in_lower.
    by rewrite (proj1 (Forall_forall _ _) Hkws kw Hin).
  - intros (kw & Hin & Hkw). exists kw. split; [by apply list_elem_of_In|].
    apply str_in_lower in Hkw.
    by rewrite (proj1 (Forall_forall _ _) Hkws kw Hin) in Hkw.
Qed.

Lemma rejected_keywords_lower : Forall (λ kw, lower kw = kw) rejected_keywords.
Proof. repeat constructor. Qed.

Lemma accepted_keywords_lower : Forall (λ kw, lower kw = kw) accepted_keywords.
Proof. repeat constructor. Qed.

Lemma is_accepted_paper_str (repr : value → string) (s : string) :
  is_accepted_paper repr (VStr s) =
  negb (any_keyword_in rejected_keywords (lower s)) &&
  any_keyword_in accepted_keywords (lower s).
Proof.
  unfold is_accepted_paper. destruct s as [|c s]; [reflexivity|].
  cbn [truthy negb py_str String.eqb].
  by destruct (any_keyword_in rejected_keywords _),
              (any_keyword_in accepted_keywords _).
Qed.

(** C2. On a decision string, a rejection keyword occurring anywhere (in any
    letter case) gives [false] whatever else occurs; without one, the result
    is [true] exactly when an acceptance keyword occurs; the empty string
    and [None] give [false]; ["Accept (Poster)"] gives [true] and
    ["Reject"] gives [false]. *)
Theorem is_accepted_paper_keywords (repr : value → string) (s : string) :
  (mentions rejected_keywords s → is_accepted_paper repr (VStr s) = false) ∧
  (¬ mentions rejected_keywords s →
     (is_accepted_paper repr (VStr s) = true ↔ mentions accepted_keywords s)) ∧
  is_accepted_paper repr (VStr "") = false ∧
  is_accepted_paper repr VNone = false ∧
  is_accepted_paper repr (VStr "Accept (Poster)") = true ∧
  is_accepted_paper repr (VStr "Reject") = false.
Proof.
  pose proof (any_keyword_in_lower _ s rejected_keywords_lower) as Hrej.
  pose proof (any_keyword_in_lower _ s accepted_keywords_lower) as Hacc.
  rewrite is_accepted_paper_str.
  split; [|split; [|by repeat split]].
  - intros H%Hrej. by rewrite H.
  - intros Hno. rewrite <- Hacc.
    destruct (any_keyword_in rejected_keywords (lower s)) eqn:E.
    + destruct Hno. by apply Hrej.
    + done.
Qed.

Lemma is_accepted_paper_keywords_witness :
  mentions rejected_keywords "Accept then Withdrawn" ∧
  is_accepted_paper Scripted.no_repr (VStr "Accept then Withdrawn") = false.
Proof.
  assert (mentions rejected_keywords "Accept then Withdrawn") as H.
  { exists "withdraw". split; [set_solver|].
    by exists "Accept then ", "Withdraw", "n". }
  split; [exact H|].
  exact (proj1 (is_accepted_paper_keywords Scripted.no_repr _) H).
Defined.

(** ** Normalization *)

Lemma extract_content_fmap (note : Note) :
  extract_content note = unwrap <$> note_content note.
Proof.
  unfold extract_content.
  apply (map_fold_weak_ind (λ r m, r = unwrap <$> m)).
  - by rewrite fmap_empty.
  - intros key val m r _ ->. by rewrite fmap_insert.
Qed.

Lemma lookup_extract_content (note : Note) (key : string) :
  extract_content note !! key = unwrap <$> note_content note !! key.
Proof. by rewrite extract_content_fmap, lookup_fmap. Qed.

Lemma unwrap_other (val : value) : ¬ is_envelope val → unwrap val = val.
Proof.
  intros H. destruct val as [| | | | |d]; try done. simpl.
  destruct (d !! "value") as [inner|] eqn:E; [|done].
  destruct H. by exists d, inner.
Qed.

Lemma dict_has_extract_content (note : Note) (key : string) :
  dict_has key (extract_content note) = dict_has key (note_content note).
Proof.
  unfold dict_has. rewrite lookup_extract_content.
  apply bool_decide_ext. by rewrite fmap_is_Some.
Qed.

(** C6. Normalization replaces an envelope by its inner value and keeps every
    other value (and adds no key); on a flat mapping it is the identity, and
    so normalizing its own output again changes nothing there. *)
Theorem extract_content_normalizes (note : Note) :
  (∀ key d inner,
     note_content note !! key = Some (VDict d) → d !! "value" = Some inner →
     extract_content note !! key = Some inner) ∧
  (∀ key val,
     note_content note !! key = Some val → ¬ is_envelope val →
     extract_content note !! key = Some val) ∧
  (∀ key, note_content note !! key = None → extract_content note !! key = None) ∧
  (flat (note_content note) → extract_content note = note_content note) ∧
  (flat (note_content note) →
     extract_content (with_content note (extract_content note)) = extract_content note).
Proof.
  assert (flat (note_content note) → extract_content note = note_content note)
    as Hflat.
  { intros Hf. apply map_eq. intros key. rewrite lookup_extract_content.
    destruct (note_content note !! key) as [val|] eqn:E; [|done].
    simpl. by rewrite (unwrap_other val (Hf key val E)). }
  repeat split.
  - intros key d inner Hk Hv. rewrite lookup_extract_content, Hk. simpl.
    by rewrite Hv.
  - intros key val Hk Hv. rewrite lookup_extract_content, Hk. simpl.
    by rewrite unwrap_other.
  - intros key Hk. by rewrite lookup_extract_content, Hk.
  - exact Hflat.
  - intros Hf. rewrite (Hflat Hf).
    replace (with_content note (note_content note)) with note by (by destruct note).
    exact (Hflat Hf).
Qed.

Lemma flat_note_flat : flat (note_content flat_note).
Proof.
  intros key val H (d & inner & -> & _). simpl in H.
  apply lookup_insert_Some in H as [[_ ?]|[_ H]]; [done|].
  apply lookup_singleton_Some in H as [_ ?]. done.
Qed.

Lemma extract_content_normalizes_witness :
  flat (note_content flat_note) ∧
  extract_content flat_note = note_content flat_note.
Proof.
  split; [exact flat_note_flat|].
  exact (proj1 (proj2 (proj2 (proj2 (extract_content_normalizes flat_note))))
           flat_note_flat).
Defined.

(** ** Classification *)

(** What one turn of the note loop does, by category. *)
Lemma note_step_classify (paper : Note) (acc : note_acc) (note : Note) :
  note_id note ≠ note_id paper →
  note_step paper acc note =
  match classify (extract_content note) with
  | Review =>
      {| reviews := reviews acc ++ [make_review note (extract_content note)];
         comments := comments acc;
         meta_reviews := meta_reviews acc;
         decision := decision acc |}
  | MetaReview =>
      {| reviews := reviews acc;
         comments := comments acc;
         meta_reviews := meta_reviews acc ++
           [make_meta_review note (note_decision note) (extract_content note)];
         decision := note_decision note |}
  | Comment =>
      {| reviews := reviews acc;
         comments := comments acc ++ [make_comment note (extract_content note)];
         meta_reviews := meta_reviews acc;
         decision := decision acc |}
  | Unclassified => acc
  end.
Proof.
  intros Hid. unfold note_step, classify.
  apply String.eqb_neq in Hid. rewrite Hid.
  by repeat case_match.
Qed.

Lemma note_step_skip (paper : Note) (acc : note_acc) (note : Note) :
  note_id note = note_id paper → note_step paper acc note = acc.
Proof.
  intros Hid. unfold note_step. apply String.eqb_eq in Hid. by rewrite Hid.
Qed.

(** C1. A note whose normalized content has the key [rating] is classified
    as a review whatever other keys it has: the loop appends its review
    record to [reviews] and leaves [meta_reviews], [comments] and
    [decision] as they were. *)
Theorem rating_note_is_review (paper : Note) (acc : note_acc) (note : Note) :
  note_id note ≠ note_id paper →
  dict_has "rating" (extract_content note) = true →
  classify (extract_content note) = Review ∧
  note_step paper acc note =
    {| reviews := reviews acc ++ [make_review note (extract_content note)];
       comments := comments acc;
       meta_reviews := meta_reviews acc;
       decision := decision acc |}.
Proof.
  intros Hid Hrating.
  assert (classify (extract_content note) = Review) as Hc.
  { unfold classify, looks_like_review, any_key_in. simpl. by rewrite Hrating. }
  split; [done|]. by rewrite note_step_classify, Hc.
Qed.

Lemma rating_note_is_review_witness :
  classify (extract_content rated_decision_note) = Review ∧
  note_step paper_A empty_acc rated_decision_note =
    {| reviews := [make_review rated_decision_note
                     (extract_content rated_decision_note)];
       comments := []; meta_reviews := []; decision := VNone |}.
Proof.
  apply (rating_note_is_review paper_A empty_acc rated_decision_note).
  - discriminate.
  - rewrite dict_has_extract_content. reflexivity.
Defined.

(** C9. A note whose identifier is the paper's identifier is skipped: it
    leaves [reviews], [meta_reviews], [comments] and [decision] untouched,
    so the result of the loop is that of the loop run without such notes. *)
Theorem submission_note_excluded (paper : Note) :
  (∀ acc note, note_id note = note_id paper → note_step paper acc note = acc) ∧
  (∀ notes,
     process_notes paper notes =
     process_notes paper (filter (λ n, note_id n ≠ note_id paper) notes)).
Proof.
  split; [intros acc note; apply note_step_skip|].
  intros notes. unfold process_notes. generalize empty_acc.
  induction notes as [|n notes IH]; intros acc; [done|].
  rewrite filter_cons. simpl. case_decide as Hid.
  - simpl. apply IH.
  - rewrite note_step_skip by done. apply IH.
Qed.

Lemma submission_note_excluded_witness :
  note_step paper_A empty_acc (with_content paper_A {[ "rating" := VStr "9" ]})
  = empty_acc.
Proof.
  apply (proj1 (submission_note_excluded paper_A)). reflexivity.
Defined.

(** C10. In a review record, [rating] falls back on [recommendation] when
    the content has no [rating], and on the empty string when it has neither;
    every other field whose key is missing from the content is the empty
    string. *)
Theorem review_fields_default (paper : Note) (acc : note_acc) (note : Note) :
  note_id note ≠ note_id paper →
  classify (extract_content note) = Review →
  ∃ r, reviews (note_step paper acc note) = reviews acc ++ [r] ∧
    (∀ v, extract_content note !! "rating" = None →
          extract_content note !! "recommendation" = Some v → rv_rating r = v) ∧
    (extract_content note !! "rating" = None →
     extract_content note !! "recommendation" = None → rv_rating r = VStr "") ∧
    (extract_content note !! "confidence" = None → rv_confidence r = VStr "") ∧
    (extract_content note !! "summary" = None → rv_summary r = VStr "") ∧
    (extract_content note !! "soundness" = None → rv_soundness r = VStr "") ∧
    (extract_content note !! "presentation" = None → rv_presentation r = VStr "") ∧
    (extract_content note !! "contribution" = None → rv_contribution r = VStr "") ∧
    (extract_content note !! "strengths" = None → rv_strengths r = VStr "") ∧
    (extract_content note !! "weaknesses" = None → rv_weaknesses r = VStr "") ∧
    (extract_content note !! "questions" = None → rv_questions r = VStr "") ∧
    (extract_content note !! "limitations" = None → rv_limitations r = VStr "") ∧
    (extract_content note !! "review" = None → rv_review_text r = VStr "").
Proof.
  intros Hid Hc. exists (make_review note (extract_content note)).
  rewrite note_step_classify, Hc by done.
  split; [done|]. unfold make_review, dict_get; simpl.
  repeat split; try (by intros ->).
  - by intros v -> ->.
  - by intros -> ->.
Qed.

Lemma review_fields_default_witness :
  ∃ r, reviews (note_step paper_A empty_acc recommendation_note) = [r] ∧
       rv_rating r = VStr "6: marginally above" ∧
       rv_confidence r = VStr "".
Proof.
  destruct (review_fields_default paper_A empty_acc recommendation_note)
    as (r & Hr & Hrec & _ & Hconf & _).
  - discriminate.
  - reflexivity.
  - exists r. split; [exact Hr|]. split.
    + apply Hrec; by rewrite lookup_extract_content.
    + apply Hconf. by rewrite lookup_extract_content.
Defined.

(** ** The paper's decision *)

Lemma classified_as_true (paper : Note) (cat : category) (note : Note) :
  classified_as paper cat note = true ↔
  note_id note ≠ note_id paper ∧ classify (extract_content note) = cat.
Proof.
  unfold classified_as.
  rewrite andb_true_iff, negb_true_iff, String.eqb_neq, bool_decide_eq_true.
  done.
Qed.

Lemma fold_note_step_meta (paper : Note) (notes : list Note) (acc : note_acc) :
  let metas := filter (λ n, classified_as paper MetaReview n = true) notes in
  meta_reviews (fold_left (note_step paper) notes acc) =
    meta_reviews acc ++
    map (λ n, make_meta_review n (note_decision n) (extract_content n)) metas ∧
  decision (fold_left (note_step paper) notes acc) =
    match last metas with Some n => note_decision n | None => decision acc end.
Proof.
  revert acc. induction notes as [|n notes IH]; intros acc; simpl.
  - by rewrite app_nil_r.
  - destruct (decide (note_id n = note_id paper)) as [Hid|Hid].
    + rewrite filter_cons_False by (rewrite classified_as_true; tauto).
      rewrite note_step_skip by done. apply IH.
    + rewrite note_step_classify by done.
      destruct (classify (extract_content n)) eqn:Hc.
      2: { rewrite filter_cons_True by (by rewrite classified_as_true).
           edestruct IH as [-> ->]. rewrite last_cons. simpl.
           split; [by rewrite <- app_assoc | by destruct (last _)]. }
      all: rewrite filter_cons_False
             by (rewrite classified_as_true; intros [_ ?]; congruence).
      all: match goal with |- context [fold_left _ _ ?a] => apply (IH a) end.
Qed.

(** ** The paper loop *)

Section crawl_properties.
Context {W C : Type}.
Variable api : openreview_api W C.
Variable repr : value → string.

Lemma fetch_notes_get_all_notes (client : C) (api_version : string) (q : query) :
  fetch_notes api client api_version q = get_all_notes api client q.
Proof. unfold fetch_notes. by destruct (String.eqb _ _). Qed.

Lemma fetch_paper_cases (client : C) (api_version : string) (paper : Note) (w : W) :
  fetch_paper api repr client api_version paper w =
  match fetch_notes api client api_version (ByForum (forum_of paper)) w with
  | (Ok notes, w') => (Ok (paper_record repr paper (process_notes paper notes)), w')
  | (Raise _, w') => (Ok (failed_record repr paper), w')
  end.
Proof.
  unfold fetch_paper, try_except, bind, ret.
  by destruct (fetch_notes _ _ _ _ _) as [[notes|e] w'].
Qed.

(** The forum fetch never makes the paper step raise. *)
Lemma fetch_paper_total (client : C) (api_version : string) (paper : Note) (w : W) :
  ∃ pd, fetch_paper api repr client api_version paper w =
          (Ok pd, (fetch_notes api client api_version (ByForum (forum_of paper)) w).2) ∧
        pd_paper_id pd = note_id paper.
Proof.
  rewrite fetch_paper_cases.
  destruct (fetch_notes _ _ _ _ _) as [[notes|e] w']; eauto.
Qed.

Lemma crawl_papers_cons (client : C) (api_version : string) (accepted_only : bool)
    (paper : Note) (rest : list Note) (all_data : list paper_data)
    (pd : paper_data) (w w' : W) :
  fetch_paper api repr client api_version paper w = (Ok pd, w') →
  crawl_papers api repr client api_version accepted_only (paper :: rest) all_data w =
  crawl_papers api repr client api_version accepted_only rest
    (if keep_paper repr accepted_only pd then all_data ++ [pd] else all_data) w'.
Proof. intros H. simpl. unfold bind at 1. by rewrite H. Qed.

(** The paper loop never raises: it visits every submission, in order,
    builds one record for each, and returns those the filter keeps. *)
Lemma crawl_papers_records (client : C) (api_version : string)
    (submissions : list Note) (w : W) :
  ∃ recs w',
    map pd_paper_id recs = map note_id submissions ∧
    ∀ accepted_only all_data,
      crawl_papers api repr client api_version accepted_only submissions all_data w =
      (Ok (all_data ++ filter (λ pd, keep_paper repr accepted_only pd = true) recs), w').
Proof.
  revert w. induction submissions as [|paper rest IH]; intros w.
  - exists [], w. split; [done|]. intros ao all_data. simpl.
    by rewrite app_nil_r.
  - destruct (fetch_paper_total client api_version paper w) as (pd & Hpd & Hid).
    destruct (IH (fetch_notes api client api_version (ByForum (forum_of paper)) w).2)
      as (recs & w' & Hids & Hrun).
    exists (pd :: recs), w'. split; [simpl; congruence|].
    intros ao all_data. rewrite (crawl_papers_cons _ _ _ _ _ _ _ _ _ Hpd), Hrun.
    rewrite filter_cons. destruct (keep_paper repr ao pd) eqn:Hk.
    + rewrite decide_True by done. by rewrite <- app_assoc.
    + rewrite decide_False by done. done.
Qed.

Lemma filter_keep_all (recs : list paper_data) :
  filter (λ pd, keep_paper repr false pd = true) recs = recs.
Proof.
  induction recs as [|pd recs IH]; [done|].
  rewrite filter_cons_True by done. by rewrite IH.
Qed.

(** C5. The paper's decision is the decision string of the last note of
    the forum (in the order fetched) that the loop classifies as a
    meta-review, and [None] when there is none; the paper step always
    returns such a record. *)
Theorem decision_is_last_meta_review (client : C) (api_version : string)
    (paper : Note) (w : W) :
  let r := fetch_notes api client api_version (ByForum (forum_of paper)) w in
  let metas :=
    filter (λ n, classified_as paper MetaReview n = true) (notes_seen r.1) in
  ∃ pd, fetch_paper api repr client api_version paper w = (Ok pd, r.2) ∧
        pd_meta_reviews pd =
          map (λ n, make_meta_review n (note_decision n) (extract_content n)) metas ∧
        pd_decision pd =
          match last metas with Some n => note_decision n | None => VNone end.
Proof.
  simpl. rewrite fetch_paper_cases.
  destruct (fetch_notes _ _ _ _ _) as [[notes|e] w']; simpl.
  - eexists. split; [done|]. simpl.
    apply (fold_note_step_meta paper notes empty_acc).
  - eexists. split; [done|]. by simpl.
Qed.
End crawl_properties.

(** ** Negotiation, pattern resolution and the whole crawl *)

Section crawl_outcomes.
Context {W C : Type}.
Variable api : openreview_api W C.
Variable repr : value → string.

Lemma resolve_patterns_cons (client : C) (api_version : string)
    (pattern : string) (rest : list string) (w : W) :
  resolve_patterns api client api_version (pattern :: rest) [] None w =
  match fetch_notes api client api_version (ByInvitation pattern) w with
  | (Ok (s :: subs), w1) => (Ok (s :: subs, Some pattern), w1)
  | (Ok [], w1) | (Raise _, w1) =>
      resolve_patterns api client api_version rest [] None w1
  end.
Proof.
  simpl. unfold bind, try_except, ret.
  by destruct (fetch_notes _ _ _ _ _) as [[[|s subs]|e] w1].
Qed.

Lemma resolve_patterns_resolution (client : C) (api_version : string)
    (pats : list string) (w : W) :
  ∃ subs used w',
    resolve_patterns api client api_version pats [] None w = (Ok (subs, used), w') ∧
    resolution api client api_version pats w subs used w'.
Proof.
  revert w. induction pats as [|pattern rest IH]; intros w.
  - exists [], None, w. split; [done | constructor].
  - rewrite resolve_patterns_cons.
    destruct (fetch_notes api client api_version (ByInvitation pattern) w)
      as [[[|s subs]|e] w1] eqn:Hf.
    + destruct (IH w1) as (subs & used & w' & Hr & Hres).
      exists subs, used, w'. split; [done|]. by eapply resolution_empty.
    + exists (s :: subs), (Some pattern), w1. split; [done|].
      by eapply resolution_found.
    + destruct (IH w1) as (subs & used & w' & Hr & Hres).
      exists subs, used, w'. split; [done|]. by eapply resolution_raises.
Qed.

Lemma resolution_resolve_patterns (client : C) (api_version : string)
    (pats : list string) (w : W) (subs : list Note) (used : option string) (w' : W) :
  resolution api client api_version pats w subs used w' →
  resolve_patterns api client api_version pats [] None w = (Ok (subs, used), w').
Proof.
  induction 1 as [w|pattern rest w e w1 subs used w2 Hf _ IH
                   |pattern rest w w1 subs used w2 Hf _ IH
                   |pattern rest w subs w1 Hf Hne].
  - done.
  - by rewrite resolve_patterns_cons, Hf.
  - by rewrite resolve_patterns_cons, Hf.
  - rewrite resolve_patterns_cons, Hf. by destruct subs.
Qed.

Lemma crawl_after_resolution (year : Z) (accepted_only : bool) (w : W)
    (client : C) (api_version : string) (w1 : W)
    (subs : list Note) (used : option string) (w2 : W) :
  get_openreview_client api w = (Ok (client, api_version), w1) →
  resolve_patterns api client api_version (patterns year) [] None w1 =
    (Ok (subs, used), w2) →
  crawl_iclr_papers_and_reviews api repr year accepted_only w =
  match subs with
  | [] => (Ok [], w2)
  | _ :: _ => crawl_papers api repr client api_version accepted_only subs [] w2
  end.
Proof.
  intros Hc Hr. unfold crawl_iclr_papers_and_reviews, bind at 1. rewrite Hc.
  unfold bind at 1. rewrite Hr. by destruct subs.
Qed.

(** C3. The candidates are the two patterns, tried in that order; a
    candidate that raises is passed over as one that answers with no
    submission is; the first answer with submissions is returned as it is
    together with its pattern; resolution itself never raises, and when
    nothing is found the crawl returns the empty list. *)
Theorem pattern_resolution (client : C) (api_version : string) (year : Z) :
  patterns year =
    [ "ICLR.cc/" +:+ pretty year +:+ "/Conference/-/Submission";
      "ICLR.cc/" +:+ pretty year +:+ "/Conference/-/Blind_Submission" ] ∧
  (∀ pats w, ∃ subs used w',
     resolve_patterns api client api_version pats [] None w = (Ok (subs, used), w') ∧
     resolution api client api_version pats w subs used w') ∧
  (∀ pats w subs used w',
     resolution api client api_version pats w subs used w' →
     resolve_patterns api client api_version pats [] None w = (Ok (subs, used), w')) ∧
  (∀ accepted_only w w1 used w2,
     get_openreview_client api w = (Ok (client, api_version), w1) →
     resolution api client api_version (patterns year) w1 [] used w2 →
     crawl_iclr_papers_and_reviews api repr year accepted_only w = (Ok [], w2)).
Proof.
  split; [done|]. split; [apply resolve_patterns_resolution|].
  split; [apply resolution_resolve_patterns|].
  intros ao w w1 used w2 Hc Hres.
  apply resolution_resolve_patterns in Hres.
  by rewrite (crawl_after_resolution _ _ _ _ _ _ _ _ _ Hc Hres).
Qed.
End crawl_outcomes.

Section crawl_faults.
Context {W C : Type}.
Variable api : openreview_api W C.
Variable repr : value → string.

(** C7 (as the code has it). Negotiation returns the v2 session tagged
    ['v2'] when the v2 constructor succeeds, and otherwise the v1 session
    tagged ['v1'] when the v1 constructor succeeds; it raises only when
    both constructors raise, and then the failure of the v1 constructor,
    whatever its kind, propagates alone and ends the crawl. *)
Theorem client_negotiation (w : W) :
  (∀ c w1, OpenReviewClient api w = (Ok c, w1) →
           get_openreview_client api w = (Ok (c, "v2"), w1)) ∧
  (∀ e2 w1 c w2,
     OpenReviewClient api w = (Raise e2, w1) → Client api w1 = (Ok c, w2) →
     get_openreview_client api w = (Ok (c, "v1"), w2)) ∧
  (∀ e2 w1 e1 w2,
     OpenReviewClient api w = (Raise e2, w1) → Client api w1 = (Raise e1, w2) →
     get_openreview_client api w = (Raise e1, w2) ∧
     ∀ year accepted_only,
       crawl_iclr_papers_and_reviews api repr year accepted_only w = (Raise e1, w2)) ∧
  (∀ e w', get_openreview_client api w = (Raise e, w') →
     ∃ e2 w1, OpenReviewClient api w = (Raise e2, w1) ∧
              Client api w1 = (Raise e, w')).
Proof.
  unfold crawl_iclr_papers_and_reviews, get_openreview_client,
    try_except, bind, ret.
  split; [|split; [|split]].
  - intros c w1 ->. done.
  - intros e2 w1 c w2 -> ->. done.
  - intros e2 w1 e1 w2 -> Hv1. by rewrite Hv1.
  - intros e w'.
    destruct (OpenReviewClient api w) as [[c|e2] w1]; [done|].
    destruct (Client api w1) as [[c|e1] w2] eqn:Hv1; [done|].
    intros [= <- <-]. eauto.
Qed.

(** C4 (as the code has it). When the forum fetch of a submission raises,
    the paper step still returns, with the record whose [reviews],
    [meta_reviews] and [comments] are empty, whose [num_reviews] is 0 and
    whose [decision] is [None]; the loop goes on with the next submission
    and does not raise. That record is in the output after what was
    collected before, unless only accepted papers are kept: then it is
    dropped, its decision being [None]. *)
Theorem failed_forum_is_isolated (client : C) (api_version : string)
    (accepted_only : bool) (paper : Note) (rest : list Note)
    (all_data : list paper_data) (w : W) (e : exn) (w' : W) :
  fetch_notes api client api_version (ByForum (forum_of paper)) w = (Raise e, w') →
  ∃ pd,
    fetch_paper api repr client api_version paper w = (Ok pd, w') ∧
    pd_paper_id pd = note_id paper ∧
    pd_reviews pd = [] ∧ pd_num_reviews pd = 0 ∧ pd_meta_reviews pd = [] ∧
    pd_decision pd = VNone ∧ pd_comments pd = [] ∧
    ∃ out_rest w'',
      crawl_papers api repr client api_version accepted_only rest [] w' =
        (Ok out_rest, w'') ∧
      crawl_papers api repr client api_version accepted_only (paper :: rest) all_data w =
        (Ok (all_data ++ (if accepted_only then [] else [pd]) ++ out_rest), w'').
Proof.
  intros Hf. exists (failed_record repr paper).
  assert (fetch_paper api repr client api_version paper w =
          (Ok (failed_record repr paper), w')) as Hpd.
  { by rewrite fetch_paper_cases, Hf. }
  repeat (split; [done|]).
  destruct (crawl_papers_records api repr client api_version rest w')
    as (recs & w'' & _ & Hrun).
  exists (filter (λ pd, keep_paper repr accepted_only pd = true) recs), w''.
  split; [by rewrite Hrun|].
  rewrite (crawl_papers_cons _ _ _ _ _ _ _ _ _ _ _ Hpd), Hrun.
  destruct accepted_only; simpl; [done|]. by rewrite <- app_assoc.
Qed.

(** The two runs of the paper loop, with and without the flag, from the
    same world. *)
Lemma loop_keeps_accepted (client : C) (api_version : string)
    (submissions : list Note) (w : W) :
  ∃ recs w',
    map pd_paper_id recs = map note_id submissions ∧
    crawl_papers api repr client api_version false submissions [] w = (Ok recs, w') ∧
    crawl_papers api repr client api_version true submissions [] w =
      (Ok (filter (λ pd, is_accepted_paper repr (pd_decision pd) = true) recs), w').
Proof.
  destruct (crawl_papers_records api repr client api_version submissions w)
    as (recs & w' & Hids & Hrun).
  exists recs, w'. split; [done|]. rewrite !Hrun, filter_keep_all.
  by split.
Qed.

Lemma crawl_keeps_accepted (year : Z) (w : W) :
  ∃ r w',
    crawl_iclr_papers_and_reviews api repr year false w = (r, w') ∧
    crawl_iclr_papers_and_reviews api repr year true w =
      (match r with
       | Ok recs =>
           Ok (filter (λ pd, is_accepted_paper repr (pd_decision pd) = true) recs)
       | Raise e => Raise e
       end, w').
Proof.
  destruct (get_openreview_client api w) as [[[client ver]|e] w1] eqn:Hc.
  - destruct (resolve_patterns_resolution api client ver (patterns year) w1)
      as (subs & used & w2 & Hr & _).
    rewrite !(crawl_after_resolution _ _ _ _ _ _ _ _ _ _ _ Hc Hr).
    destruct subs as [|s subs]; [by exists (Ok []), w2|].
    destruct (loop_keeps_accepted client ver (s :: subs) w2)
      as (recs & w' & _ & Hall & Hacc).
    exists (Ok recs), w'. by rewrite Hall, Hacc.
  - exists (Raise e), w1.
    unfold crawl_iclr_papers_and_reviews, bind. by rewrite Hc.
Qed.
End crawl_faults.

(** ** Concrete runs on the scripted platform *)

(** C8. With the accepted-only flag the crawl returns, of the records it
    returns without the flag, exactly those whose decision
    [is_accepted_paper] accepts, in the same order; without the flag there
    is one record per submission, in the order of the submissions. For A
    accepted as a poster and B rejected, the output is the record of A. *)
Theorem accepted_only_filters :
  (∀ W C (api : openreview_api W C) repr client api_version submissions w,
     ∃ recs w',
       map pd_paper_id recs = map note_id submissions ∧
       crawl_papers api repr client api_version false submissions [] w =
         (Ok recs, w') ∧
       crawl_papers api repr client api_version true submissions [] w =
         (Ok (filter (λ pd, is_accepted_paper repr (pd_decision pd) = true) recs), w')) ∧
  (∀ W C (api : openreview_api W C) repr year w,
     ∃ r w',
       crawl_iclr_papers_and_reviews api repr year false w = (r, w') ∧
       crawl_iclr_papers_and_reviews api repr year true w =
         (match r with
          | Ok recs =>
              Ok (filter (λ pd, is_accepted_paper repr (pd_decision pd) = true) recs)
          | Raise e => Raise e
          end, w')) ∧
  crawl_iclr_papers_and_reviews (Scripted.platform accept_reject_script)
    Scripted.no_repr 2024 true 0 = (Ok [record_A], 4).
Proof.
  split; [|split].
  - intros. apply loop_keeps_accepted.
  - intros. apply crawl_keeps_accepted.
  - vm_compute. reflexivity.
Qed.

Lemma failed_forum_dropped_when_accepted_only :
  fetch_notes (Scripted.platform failing_forum_script) "api2" "v2"
    (ByForum (forum_of paper_A)) 2 = (Raise fetch_error, 3) ∧
  crawl_iclr_papers_and_reviews (Scripted.platform failing_forum_script)
    Scripted.no_repr 2024 true 0 = (Ok [], 3).
Proof. split; vm_compute; reflexivity. Qed.

Lemma failed_forum_is_isolated_witness :
  ∃ pd,
    pd_reviews pd = [] ∧ pd_decision pd = VNone ∧
    crawl_papers (Scripted.platform failing_forum_script) Scripted.no_repr
      "api2" "v2" false [paper_A] [] 2 = (Ok [pd], 3).
Proof.
  destruct (failed_forum_is_isolated (Scripted.platform failing_forum_script)
              Scripted.no_repr "api2" "v2" false paper_A [] [] 2 fetch_error 3)
    as (pd & _ & _ & Hr & _ & _ & Hd & _ & out & w & Hrest & Hrun).
  - reflexivity.
  - exists pd. split; [exact Hr|]. split; [exact Hd|].
    injection Hrest as <- <-. exact Hrun.
Defined.

Lemma negotiation_failure_not_ConnectionError :
  crawl_iclr_papers_and_reviews (Scripted.platform no_login_script)
    Scripted.no_repr 2024 false 0 = (Raise login_error, 2) ∧
  ¬ ConnectionError_kind login_error.
Proof.
  split; [reflexivity|]. unfold ConnectionError_kind. simpl.
  rewrite !elem_of_cons, elem_of_nil. intros H.
  repeat (destruct H as [H|H]; [discriminate H|]). exact H.
Qed.

Lemma client_negotiation_witness :
  get_openreview_client (Scripted.platform blind_submission_script) 0 =
    (Ok ("api1", "v1"), 2).
Proof.
  apply (proj1 (proj2 (client_negotiation
                         (Scripted.platform blind_submission_script)
                         Scripted.no_repr 0)) login_error 1 "api1" 2);
    reflexivity.
Defined.

Lemma pattern_resolution_witness :
  resolve_patterns (Scripted.platform blind_submission_script) "api1" "v1"
    (patterns 2023) [] None 2 =
  (Ok ([paper_A; paper_B; paper_C],
       Some "ICLR.cc/2023/Conference/-/Blind_Submission"), 4).
Proof.
  apply (proj1 (proj2 (proj2 (pattern_resolution
                  (Scripted.platform blind_submission_script)
                  Scripted.no_repr "api1" "v1" 2023)))).
  eapply resolution_raises; [reflexivity|].
  eapply resolution_found; [reflexivity|discriminate].
Defined.

(** ** More on the note loop *)

Lemma fold_note_step_reviews_comments (paper : Note) (notes : list Note)
    (acc : note_acc) :
  reviews (fold_left (note_step paper) notes acc) =
    reviews acc ++
    map (λ n, make_review n (extract_content n))
      (filter (λ n, classified_as paper Review n = true) notes) ∧
  comments (fold_left (note_step paper) notes acc) =
    comments acc ++
    map (λ n, make_comment n (extract_content n))
      (filter (λ n, classified_as paper Comment n = true) notes).
Proof.
  revert acc. induction notes as [|n notes IH]; intros acc; simpl.
  - by rewrite !app_nil_r.
  - destruct (decide (note_id n = note_id paper)) as [Hid|Hid].
    + rewrite !filter_cons_False by (rewrite classified_as_true; tauto).
      rewrite note_step_skip by done. apply IH.
    + rewrite note_step_classify by done.
      destruct (classify (extract_content n)) eqn:Hc.
      all: repeat
             (first [ rewrite filter_cons_True by (by rewrite classified_as_true)
                    | rewrite filter_cons_False
                        by (rewrite classified_as_true; intros [_ ?]; congruence) ]).
      all: edestruct IH as [-> ->]; simpl; by rewrite <- ?app_assoc.
Qed.

(** X1. The reviews, the comments and the meta-reviews of a paper are the
    records of the notes the loop classifies as such, each sequence in the
    order the notes were fetched. *)
Theorem notes_filed_in_order (paper : Note) (notes : list Note) :
  reviews (process_notes paper notes) =
    map (λ n, make_review n (extract_content n))
      (filter (λ n, classified_as paper Review n = true) notes) ∧
  comments (process_notes paper notes) =
    map (λ n, make_comment n (extract_content n))
      (filter (λ n, classified_as paper Comment n = true) notes) ∧
  meta_reviews (process_notes paper notes) =
    map (λ n, make_meta_review n (note_decision n) (extract_content n))
      (filter (λ n, classified_as paper MetaReview n = true) notes).
Proof.
  unfold process_notes.
  destruct (fold_note_step_reviews_comments paper notes empty_acc) as [-> ->].
  destruct (fold_note_step_meta paper notes empty_acc) as [-> _].
  done.
Qed.

Lemma filter_categories_length (paper : Note) (notes : list Note) :
  length (filter (λ n, classified_as paper Review n = true) notes) +
  length (filter (λ n, classified_as paper MetaReview n = true) notes) +
  length (filter (λ n, classified_as paper Comment n = true) notes) =
  length (filter (λ n, note_id n ≠ note_id paper ∧
                       classify (extract_content n) ≠ Unclassified) notes).
Proof.
  induction notes as [|n notes IH]; [done|].
  destruct (decide (note_id n = note_id paper)) as [Hid|Hid].
  - rewrite !(filter_cons_False _ n) by (rewrite ?classified_as_true; tauto).
    done.
  - destruct (classify (extract_content n)) eqn:Hc.
    all: repeat
           (first [ rewrite (filter_cons_True _ n)
                      by (rewrite ?classified_as_true, ?Hc; done)
                  | rewrite (filter_cons_False _ n)
                      by (rewrite ?classified_as_true, ?Hc;
                          intros [_ ?]; congruence) ]).
    all: simpl; lia.
Qed.

(** X2. Every fetched note is accounted for once: the three sequences
    together have one entry for each note that is not the submission itself
    and has a category, so never more entries than notes. *)
Theorem every_note_filed_once (paper : Note) (notes : list Note) :
  length (reviews (process_notes paper notes)) +
  length (meta_reviews (process_notes paper notes)) +
  length (comments (process_notes paper notes)) =
  length (filter (λ n, note_id n ≠ note_id paper ∧
                       classify (extract_content n) ≠ Unclassified) notes) ∧
  length (reviews (process_notes paper notes)) +
  length (meta_reviews (process_notes paper notes)) +
  length (comments (process_notes paper notes)) ≤ length notes.
Proof.
  unfold process_notes.
  destruct (fold_note_step_reviews_comments paper notes empty_acc) as [-> ->].
  destruct (fold_note_step_meta paper notes empty_acc) as [-> _]. simpl.
  rewrite !length_map, filter_categories_length.
  split; [done | apply length_filter].
Qed.

(** X3. A note is filed as a meta-review exactly when its content has the
    key [decision] and none of the four review keys; the decision recorded
    for it is then the value under [decision] (unwrapped), never the one
    under [recommendation]. *)
Theorem meta_review_needs_decision_key (paper : Note) (note : Note) :
  (∀ c, classify c = MetaReview ↔
        dict_has "decision" c = true ∧ looks_like_review c = false) ∧
  (classified_as paper MetaReview note = true →
   ∃ raw, note_content note !! "decision" = Some raw ∧
          note_decision note = unwrap raw).
Proof.
  assert (∀ c, classify c = MetaReview ↔
               dict_has "decision" c = true ∧ looks_like_review c = false) as Hc.
  { intros c. unfold classify, looks_like_review, looks_like_meta_review,
      looks_like_comment, any_key_in. simpl.
    destruct (dict_has "rating" c), (dict_has "confidence" c),
      (dict_has "review" c), (dict_has "recommendation" c),
      (dict_has "decision" c), (dict_has "comment" c), (dict_has "rebuttal" c);
      simpl; intuition congruence. }
  split; [exact Hc|]. intros H.
  apply classified_as_true in H as [_ H]. apply Hc in H as [Hd _].
  rewrite dict_has_extract_content in Hd.
  apply bool_decide_eq_true in Hd as [raw Hraw]. exists raw. split; [done|].
  unfold note_decision, dict_get. by rewrite !lookup_extract_content, Hraw.
Qed.

Lemma meta_review_needs_decision_key_witness :
  ∃ raw, note_content meta_A !! "decision" = Some raw ∧
         note_decision meta_A = unwrap raw.
Proof.
  apply (proj2 (meta_review_needs_decision_key paper_A meta_A)).
  rewrite classified_as_true. split; [discriminate|]. reflexivity.
Defined.

(** X4. A note is filed as a comment exactly when its content has none of
    the four review keys, no [decision], and [comment] or [rebuttal]; its
    text is the value under [comment] when that key is present and the one
    under [rebuttal] otherwise. *)
Theorem comment_rule (paper : Note) (note : Note) :
  (∀ c, classify c = Comment ↔
        looks_like_review c = false ∧ dict_has "decision" c = false ∧
        looks_like_comment c = true) ∧
  (classified_as paper Comment note = true →
   ∃ raw,
     (note_content note !! "comment" = Some raw ∨
      note_content note !! "comment" = None ∧
      note_content note !! "rebuttal" = Some raw) ∧
     cm_comment (make_comment note (extract_content note)) = unwrap raw).
Proof.
  assert (∀ c, classify c = Comment ↔
               looks_like_review c = false ∧ dict_has "decision" c = false ∧
               looks_like_comment c = true) as Hc.
  { intros c. unfold classify, looks_like_review, looks_like_meta_review,
      looks_like_comment, any_key_in. simpl.
    destruct (dict_has "rating" c), (dict_has "confidence" c),
      (dict_has "review" c), (dict_has "recommendation" c),
      (dict_has "decision" c), (dict_has "comment" c), (dict_has "rebuttal" c);
      simpl; intuition congruence. }
  split; [exact Hc|]. intros H.
  apply classified_as_true in H as [_ H]. apply Hc in H as (_ & _ & Hk).
  unfold looks_like_comment, any_key_in in Hk. simpl in Hk.
  rewrite !dict_has_extract_content in Hk.
  unfold make_comment, dict_get. simpl. rewrite !lookup_extract_content.
  destruct (note_content note !! "comment") as [raw|] eqn:Hcm.
  - exists raw. by split; [left|].
  - unfold dict_has in Hk. rewrite Hcm in Hk. simpl in Hk.
    rewrite orb_false_r in Hk.
    apply bool_decide_eq_true in Hk as [raw Hraw].
    exists raw. rewrite Hraw. by split; [right|].
Qed.

Lemma comment_rule_witness :
  ∃ raw,
    (note_content rebuttal_note !! "comment" = Some raw ∨
     note_content rebuttal_note !! "comment" = None ∧
     note_content rebuttal_note !! "rebuttal" = Some raw) ∧
    cm_comment (make_comment rebuttal_note (extract_content rebuttal_note)) =
      unwrap raw.
Proof.
  apply (proj2 (comment_rule paper_A rebuttal_note)).
  rewrite classified_as_true. split; [discriminate|]. reflexivity.
Defined.

(** X5. A note with none of the seven keys the loop looks for is dropped:
    it has no category and the loop leaves all four accumulators as they
    were; any other note has a category. *)
Theorem unclassified_iff_no_known_key (paper : Note) (acc : note_acc) (note : Note) :
  (∀ c, classify c = Unclassified ↔ any_key_in known_keys c = false) ∧
  (any_key_in known_keys (note_content note) = false →
   note_step paper acc note = acc).
Proof.
  assert (∀ c, classify c = Unclassified ↔ any_key_in known_keys c = false) as Hc.
  { intros c. unfold classify, looks_like_review, looks_like_meta_review,
      looks_like_comment, any_key_in, known_keys. simpl.
    destruct (dict_has "rating" c), (dict_has "confidence" c),
      (dict_has "review" c), (dict_has "recommendation" c),
      (dict_has "decision" c), (dict_has "comment" c), (dict_has "rebuttal" c);
      simpl; intuition congruence. }
  split; [exact Hc|]. intros H.
  destruct (decide (note_id note = note_id paper)) as [Hid|Hid].
  - by apply note_step_skip.
  - rewrite note_step_classify by done.
    assert (classify (extract_content note) = Unclassified) as ->; [|done].
    apply Hc. rewrite <- H. unfold any_key_in, known_keys. simpl.
    by rewrite !dict_has_extract_content.
Qed.

Lemma unclassified_iff_no_known_key_witness :
  note_step paper_A empty_acc signature_note = empty_acc.
Proof.
  apply (proj2 (unclassified_iff_no_known_key paper_A empty_acc signature_note)).
  reflexivity.
Defined.

Lemma dict_has_dom (key : string) (c1 c2 : gmap string value) :
  dom c1 = dom c2 → dict_has key c1 = dict_has key c2.
Proof.
  intros H. unfold dict_has. apply bool_decide_ext.
  by rewrite <- !elem_of_dom, H.
Qed.

(** X6. The category depends on the key set alone: two contents with the
    same keys get the same category, so the raw content and the normalized
    content of a note do, whichever API generation wrapped the values. *)
Theorem classify_ignores_envelopes (note : Note) (c1 c2 : gmap string value) :
  classify (extract_content note) = classify (note_content note) ∧
  (dom c1 = dom c2 → classify c1 = classify c2).
Proof.
  split.
  - unfold classify, looks_like_review, looks_like_meta_review,
      looks_like_comment, any_key_in. simpl.
    by rewrite !dict_has_extract_content.
  - intros H. unfold classify, looks_like_review, looks_like_meta_review,
      looks_like_comment, any_key_in. simpl.
    by rewrite !(dict_has_dom _ c1 c2 H).
Qed.

Lemma classify_ignores_envelopes_witness :
  classify {[ "decision" := VStr "Reject" ]} =
  classify {[ "decision" := VDict {[ "value" := VStr "Accept" ]} ]}.
Proof.
  apply (proj2 (classify_ignores_envelopes paper_A _ _)).
  by rewrite !dom_singleton_L.
Defined.

(** X7. On one content, [get_value] and the normalizer read the same value
    under a key, a missing key reading as the empty string, except where the
    value is a mapping without a [value] key: there [get_value] gives the
    empty string and the normalizer keeps the mapping. *)
Theorem get_value_vs_extract_content (note : Note) (key : string) :
  ((∀ d, note_content note !! key = Some (VDict d) → is_Some (d !! "value")) →
   get_value (note_content note) key =
   dict_get (extract_content note) key (VStr "")) ∧
  (∀ d, note_content note !! key = Some (VDict d) → d !! "value" = None →
        get_value (note_content note) key = VStr "" ∧
        dict_get (extract_content note) key (VStr "") = VDict d).
Proof.
  unfold get_value, dict_get. rewrite lookup_extract_content. split.
  - intros H. destruct (note_content note !! key) as [[| | | | |d]|] eqn:E;
      try done. simpl. destruct (H d eq_refl) as [v Hv]. by rewrite Hv.
  - intros d -> Hv. simpl. by rewrite Hv.
Qed.

Lemma get_value_vs_extract_content_witness :
  get_value (note_content odd_abstract_paper) "abstract" = VStr "" ∧
  dict_get (extract_content odd_abstract_paper) "abstract" (VStr "") =
    VDict {[ "text" := VStr "..." ]}.
Proof.
  apply (proj2 (get_value_vs_extract_content odd_abstract_paper "abstract"));
    reflexivity.
Defined.

(** X8. The title of a record: a submission without [title], or whose
    [title] is a mapping without a [value] key, is titled ["No title"]; an
    envelope gives its inner value and any other value is kept. *)
Theorem title_defaults (repr : value → string) (paper : Note) (acc : note_acc) :
  pd_title (paper_record repr paper acc) = py_str repr (paper_title paper) ∧
  pd_title (failed_record repr paper) = py_str repr (paper_title paper) ∧
  (note_content paper !! "title" = None → paper_title paper = VStr "No title") ∧
  (∀ d, note_content paper !! "title" = Some (VDict d) →
        paper_title paper = default (VStr "No title") (d !! "value")) ∧
  (∀ v, note_content paper !! "title" = Some v → (∀ d, v ≠ VDict d) →
        paper_title paper = v).
Proof.
  unfold paper_title, dict_get. repeat split.
  - by intros ->.
  - by intros d ->.
  - intros v -> Hv. destruct v; try done. by destruct (Hv d).
Qed.

Lemma title_defaults_witness :
  pd_title (failed_record Scripted.no_repr untitled_paper) = "No title".
Proof.
  destruct (title_defaults Scripted.no_repr untitled_paper empty_acc)
    as (_ & -> & H & _).
  by rewrite H.
Defined.

(** ** More on the whole crawl *)

Section crawl_invariants.
Context {W C : Type}.
Variable api : openreview_api W C.
Variable repr : value → string.

Lemma fetch_paper_consistent (client : C) (api_version : string) (paper : Note)
    (w : W) (pd : paper_data) (w' : W) :
  fetch_paper api repr client api_version paper w = (Ok pd, w') →
  record_consistent pd.
Proof.
  rewrite fetch_paper_cases.
  destruct (fetch_notes _ _ _ _ _) as [[notes|e] w1]; intros [= <- <-].
  - unfold record_consistent. simpl. repeat split.
    destruct (fold_note_step_meta paper notes empty_acc) as [Hm Hd].
    unfold process_notes. rewrite Hm, Hd. simpl.
    rewrite fmap_last. by destruct (last _).
  - by repeat split.
Qed.

Lemma crawl_papers_Forall (P : paper_data → Prop) (client : C)
    (api_version : string) (accepted_only : bool) (submissions : list Note) :
  (∀ paper w pd w',
     fetch_paper api repr client api_version paper w = (Ok pd, w') →
     keep_paper repr accepted_only pd = true → P pd) →
  ∀ all_data w out w',
    Forall P all_data →
    crawl_papers api repr client api_version accepted_only submissions all_data w =
      (Ok out, w') →
    Forall P out.
Proof.
  intros HP. induction submissions as [|paper rest IH]; intros all_data w out w' Hall.
  - by intros [= <- <-].
  - destruct (fetch_paper_total api repr client api_version paper w)
      as (pd & Hpd & _).
    rewrite (crawl_papers_cons _ _ _ _ _ _ _ _ _ _ _ Hpd). apply IH.
    destruct (keep_paper repr accepted_only pd) eqn:Hk; [|done].
    apply Forall_app. split; [done|]. constructor; [|done]. by eapply HP.
Qed.

Lemma crawl_Forall (P : paper_data → Prop) (year : Z) (accepted_only : bool)
    (w : W) (out : list paper_data) (w' : W) :
  (∀ client api_version paper w pd w',
     fetch_paper api repr client api_version paper w = (Ok pd, w') →
     keep_paper repr accepted_only pd = true → P pd) →
  crawl_iclr_papers_and_reviews api repr year accepted_only w = (Ok out, w') →
  Forall P out.
Proof.
  intros HP.
  destruct (get_openreview_client api w) as [[[client ver]|e] w1] eqn:Hc.
  - destruct (resolve_patterns_resolution api client ver (patterns year) w1)
      as (subs & used & w2 & Hr & _).
    rewrite (crawl_after_resolution _ _ _ _ _ _ _ _ _ _ _ Hc Hr).
    destruct subs as [|s subs]; [by intros [= <- <-]|].
    apply crawl_papers_Forall; [apply HP | done].
  - unfold crawl_iclr_papers_and_reviews, bind. by rewrite Hc.
Qed.

(** X9. Every record the crawl returns is consistent: [num_reviews] is the
    number of its reviews, both URLs end in its forum identifier, and its
    decision is that of its last meta-review, [None] when it has none. *)
Theorem crawl_records_consistent (year : Z) (accepted_only : bool) (w : W)
    (out : list paper_data) (w' : W) :
  crawl_iclr_papers_and_reviews api repr year accepted_only w = (Ok out, w') →
  Forall record_consistent out.
Proof.
  apply crawl_Forall. intros client ver paper w0 pd w0' H _.
  by eapply fetch_paper_consistent.
Qed.

(** X10. Every record of an accepted-only crawl has a decision that
    [is_accepted_paper] accepts, and so at least one meta-review: a paper
    without a meta-review, or whose forum could not be fetched, is never in
    that output. *)
Theorem accepted_only_output_accepted (year : Z) (w : W)
    (out : list paper_data) (w' : W) :
  crawl_iclr_papers_and_reviews api repr year true w = (Ok out, w') →
  Forall (λ pd, is_accepted_paper repr (pd_decision pd) = true ∧
                pd_meta_reviews pd ≠ []) out.
Proof.
  apply crawl_Forall. intros client ver paper w0 pd w0' H Hk.
  split; [exact Hk|]. intros Hm.
  apply fetch_paper_consistent in H as (_ & _ & _ & Hd).
  rewrite Hm in Hd. simpl in Hd, Hk. by rewrite Hd in Hk.
Qed.

(** X11. The records returned belong to the submissions that pattern
    resolution found, one record at most per submission and in their order. *)
Theorem output_ids_sublist (year : Z) (accepted_only : bool) (w : W)
    (out : list paper_data) (w' : W) :
  crawl_iclr_papers_and_reviews api repr year accepted_only w = (Ok out, w') →
  ∃ client api_version w1 subs used w2,
    get_openreview_client api w = (Ok (client, api_version), w1) ∧
    resolution api client api_version (patterns year) w1 subs used w2 ∧
    map pd_paper_id out `sublist_of` map note_id subs ∧
    length out ≤ length subs.
Proof.
  destruct (get_openreview_client api w) as [[[client ver]|e] w1] eqn:Hc.
  - destruct (resolve_patterns_resolution api client ver (patterns year) w1)
      as (subs & used & w2 & Hr & Hres).
    rewrite (crawl_after_resolution _ _ _ _ _ _ _ _ _ _ _ Hc Hr).
    intros Hout. exists client, ver, w1, subs, used, w2.
    split; [done|]. split; [done|].
    assert (map pd_paper_id out `sublist_of` map note_id subs) as Hsub.
    { destruct subs as [|s subs].
      - injection Hout as <- <-. constructor.
      - destruct (crawl_papers_records api repr client ver (s :: subs) w2)
          as (recs & w3 & Hids & Hrun).
        rewrite Hrun in Hout. injection Hout as <- <-.
        rewrite <- Hids. simpl.
        apply (fmap_sublist pd_paper_id), sublist_filter. }
    split; [done|]. apply sublist_length in Hsub. by rewrite !length_map in Hsub.
  - unfold crawl_iclr_papers_and_reviews, bind. by rewrite Hc.
Qed.

Lemma resolution_used_pattern (client : C) (api_version : string)
    (pats : list string) (w : W) (subs : list Note) (used : option string) (w' : W) :
  resolution api client api_version pats w subs used w' →
  (subs = [] ↔ used = None) ∧ (∀ p, used = Some p → p ∈ pats).
Proof.
  induction 1 as [w|pattern rest w e w1 subs used w2 _ _ [IH1 IH2]
                   |pattern rest w w1 subs used w2 _ _ [IH1 IH2]
                   |pattern rest w subs w1 _ Hne].
  - split; [done|]. by intros p.
  - split; [done|]. intros p Hp. right. by apply IH2.
  - split; [done|]. intros p Hp. right. by apply IH2.
  - split; [by split|]. intros p [= <-]. by left.
Qed.

(** X12. After the pattern loop, [used_pattern] is [None] exactly when no
    submission was found, and is otherwise one of the candidates. *)
Theorem used_pattern_iff_found (client : C) (api_version : string)
    (pats : list string) (w : W) :
  ∃ subs used w',
    resolve_patterns api client api_version pats [] None w = (Ok (subs, used), w') ∧
    (subs = [] ↔ used = None) ∧
    (∀ p, used = Some p → p ∈ pats).
Proof.
  destruct (resolve_patterns_resolution api client api_version pats w)
    as (subs & used & w' & Hr & Hres).
  exists subs, used, w'. split; [done|]. by eapply resolution_used_pattern.
Qed.
End crawl_invariants.

Lemma crawl_records_consistent_witness : Forall record_consistent [record_A].
Proof.
  apply (crawl_records_consistent (Scripted.platform accept_reject_script)
           Scripted.no_repr 2024 true 0 [record_A] 4).
  vm_compute. reflexivity.
Defined.

Lemma accepted_only_output_accepted_witness :
  Forall (λ pd, is_accepted_paper Scripted.no_repr (pd_decision pd) = true ∧
                pd_meta_reviews pd ≠ []) [record_A].
Proof.
  apply (accepted_only_output_accepted (Scripted.platform accept_reject_script)
           Scripted.no_repr 2024 0 [record_A] 4).
  vm_compute. reflexivity.
Defined.

Lemma output_ids_sublist_witness :
  ∃ client api_version w1 subs used w2,
    get_openreview_client (Scripted.platform accept_reject_script) 0 =
      (Ok (client, api_version), w1) ∧
    resolution (Scripted.platform accept_reject_script) client api_version
      (patterns 2024) w1 subs used w2 ∧
    map pd_paper_id [record_A] `sublist_of` map note_id subs ∧
    length [record_A] ≤ length subs.
Proof.
  apply (output_ids_sublist (Scripted.platform accept_reject_script)
           Scripted.no_repr 2024 true 0 [record_A] 4).
  vm_compute. reflexivity.
Defined.

(** ** More on [is_accepted_paper] *)

Lemma append_assoc (a b c : string) : (a +:+ b) +:+ c = a +:+ b +:+ c.
Proof.
  induction a as [|x a IH]; [done|]. rewrite !append_cons. by rewrite IH.
Qed.

Lemma ascii_lower_idemp (c : ascii) : ascii_lower (ascii_lower c) = ascii_lower c.
Proof. destruct c as [[] [] [] [] [] [] [] []]; reflexivity. Qed.

Lemma lower_idemp (s : string) : lower (lower s) = lower s.
Proof.
  induction s as [|c s IH]; [done|]. simpl. by rewrite ascii_lower_idemp, IH.
Qed.

Lemma lower_empty (s : string) : lower s = "" → s = "".
Proof. by destruct s. Qed.

(** X13. The verdict does not depend on the case of the letters: two
    decision strings that are equal once lower-cased get the same verdict,
    and so does a string and its lower-cased form. *)
Theorem is_accepted_paper_case_insensitive (repr : value → string) (s t : string) :
  (lower s = lower t →
   is_accepted_paper repr (VStr s) = is_accepted_paper repr (VStr t)) ∧
  is_accepted_paper repr (VStr (lower s)) = is_accepted_paper repr (VStr s).
Proof.
  rewrite !is_accepted_paper_str, lower_idemp. split; [|done]. by intros ->.
Qed.

Lemma is_accepted_paper_case_insensitive_witness :
  is_accepted_paper Scripted.no_repr (VStr "ACCEPT (oral)") =
  is_accepted_paper Scripted.no_repr (VStr "Accept (Oral)").
Proof.
  apply (proj1 (is_accepted_paper_case_insensitive Scripted.no_repr _ _)).
  reflexivity.
Defined.

Lemma str_in_app (sub pre s post : string) :
  str_in sub s = true → str_in sub (pre +:+ s +:+ post) = true.
Proof.
  rewrite !str_in_iff. intros (a & b & ->).
  exists (pre +:+ a), (b +:+ post). by rewrite !append_assoc.
Qed.

Lemma any_keyword_in_app (kws : list string) (pre s post : string) :
  any_keyword_in kws s = true → any_keyword_in kws (pre +:+ s +:+ post) = true.
Proof.
  unfold any_keyword_in. rewrite !existsb_exists.
  intros (kw & Hin & Hkw). exists kw. split; [done|]. by apply str_in_app.
Qed.

(** X14. The keyword ["desk reject"] never changes a verdict: a text that
    contains it contains ["reject"], so the rejection test is the test for
    ["reject"] and ["withdraw"] alone. *)
Theorem desk_reject_redundant (text : string) :
  (str_in "desk reject" text = true → str_in "reject" text = true) ∧
  any_keyword_in rejected_keywords text =
  any_keyword_in ["reject"; "withdraw"] text.
Proof.
  assert (str_in "desk reject" text = true → str_in "reject" text = true) as H.
  { rewrite !str_in_iff. intros (pre & post & ->).
    exists (pre +:+ "desk "), post. by rewrite append_assoc. }
  split; [exact H|]. unfold any_keyword_in, rejected_keywords. simpl.
  destruct (str_in "reject" text) eqn:E; [done|]. simpl.
  destruct (str_in "desk reject" text); [|done]. by discriminate H.
Qed.

Lemma desk_reject_redundant_witness :
  str_in "reject" "Desk reject (out of scope), desk rejected" = true.
Proof.
  apply (proj1 (desk_reject_redundant _)). reflexivity.
Defined.

(** X15. A rejection is not undone by text around it: a decision string
    with a rejection keyword stays rejected inside any longer string; an
    accepted one stays accepted inside a longer string unless that string
    has a rejection keyword. *)
Theorem rejection_survives_context (repr : value → string) (pre s post : string) :
  (any_keyword_in rejected_keywords (lower s) = true →
   is_accepted_paper repr (VStr (pre +:+ s +:+ post)) = false) ∧
  (is_accepted_paper repr (VStr s) = true →
   is_accepted_paper repr (VStr (pre +:+ s +:+ post)) =
   negb (any_keyword_in rejected_keywords (lower (pre +:+ s +:+ post)))).
Proof.
  rewrite !is_accepted_paper_str, !lower_app. split.
  - intros H. by rewrite (any_keyword_in_app _ _ _ _ H).
  - intros [_ H]%andb_true_iff.
    by rewrite (any_keyword_in_app _ _ _ _ H), andb_true_r.
Qed.

Lemma rejection_survives_context_witness :
  is_accepted_paper Scripted.no_repr
    (VStr ("Accept (poster); " +:+ "Withdrawn" +:+ " by the authors")) = false.
Proof.
  apply (proj1 (rejection_survives_context Scripted.no_repr _ _ _)).
  reflexivity.
Defined.

(** ** Years in patterns and file names *)

Lemma append_inv_head (p a b : string) : p +:+ a = p +:+ b → a = b.
Proof.
  induction p as [|c p IH]; [done|]. rewrite !append_cons. intros [= H]. auto.
Qed.

Lemma pretty_N_char_int (x : N) : int_char (pretty_N_char x) = true.
Proof. unfold pretty_N_char. by repeat case_match. Qed.

Lemma pretty_N_go_chars (x : N) (s : string) :
  all_chars int_char s = true → all_chars int_char (pretty_N_go x s) = true.
Proof.
  revert s. induction (N.lt_wf_0 x) as [x _ IH]; intros s Hs.
  assert (x = 0 ∨ 0 < x)%N as [->|Hx] by lia.
  - by rewrite pretty_N_go_0.
  - rewrite pretty_N_go_step by done. apply IH; [by apply N.div_lt|].
    simpl. by rewrite pretty_N_char_int.
Qed.

Lemma pretty_Z_chars (z : Z) : all_chars int_char (pretty z) = true.
Proof.
  assert (∀ p : positive, all_chars int_char (pretty p) = true) as Hp.
  { intros p. unfold pretty, pretty_positive, pretty, pretty_N.
    case_decide; [done|]. by apply pretty_N_go_chars. }
  destruct z as [|p|p]; [done|apply Hp|].
  unfold pretty, pretty_Z. rewrite append_cons. simpl. apply Hp.
Qed.

(** Two texts made of digits and minus signs, each followed by the same
    other character, are equal when what they start is. *)
Lemma int_text_sep_inj (c : ascii) (a b r1 r2 : string) :
  int_char c = false →
  all_chars int_char a = true → all_chars int_char b = true →
  a +:+ String c r1 = b +:+ String c r2 → a = b ∧ r1 = r2.
Proof.
  intros Hc. revert b. induction a as [|x a IH]; intros [|y b] Ha Hb H.
  - by injection H.
  - rewrite append_cons in H. injection H as -> _. simpl in Hb.
    rewrite Hc in Hb. done.
  - rewrite append_cons in H. injection H as <- _. simpl in Ha.
    rewrite Hc in Ha. done.
  - rewrite !append_cons in H. injection H as -> H. simpl in Ha, Hb.
    apply andb_true_iff in Ha as [_ Ha]. apply andb_true_iff in Hb as [_ Hb].
    destruct (IH b Ha Hb H) as [-> ->]. done.
Qed.

Lemma year_text_inj (c : ascii) (y1 y2 : Z) (r1 r2 : string) :
  int_char c = false →
  pretty y1 +:+ String c r1 = pretty y2 +:+ String c r2 → y1 = y2 ∧ r1 = r2.
Proof.
  intros Hc H.
  apply int_text_sep_inj in H as [H ->]; auto using pretty_Z_chars.
  split; [|done]. by apply (inj pretty).
Qed.

(** X16. An invitation pattern names its year: the two candidates of a year
    differ, and a pattern tried for one year is never a pattern tried for
    another. *)
Theorem patterns_identify_year (y1 y2 : Z) (p : string) :
  NoDup (patterns y1) ∧
  (p ∈ patterns y1 → p ∈ patterns y2 → y1 = y2).
Proof.
  unfold patterns. split.
  - apply NoDup_cons. split; [|apply NoDup_singleton].
    rewrite list_elem_of_singleton. intros H.
    apply append_inv_head, append_inv_head in H. discriminate H.
  - rewrite !elem_of_cons, !elem_of_nil.
    intros [->|[->|[]]] [H|[H|[]]]; apply append_inv_head in H;
      by apply (year_text_inj "/") in H as [? _].
Qed.

Lemma patterns_identify_year_witness : 2024%Z = 2024%Z.
Proof.
  apply (proj2 (patterns_identify_year 2024 2024
                  "ICLR.cc/2024/Conference/-/Submission")).
  - left.
  - left.
Defined.

(** ** [save_data] and the program entry *)

Lemma before_colon_no_colon (s : string) :
  str_in ":" s = false → before_colon s = s.
Proof.
  induction s as [|c s IH]; [done|]. cbn [str_in before_colon].
  destruct (Ascii.eqb_spec c ":") as [->|Hc].
  - by destruct s.
  - intros [_ H]%orb_false_iff. by rewrite IH.
Qed.

Lemma before_colon_app (s t : string) :
  str_in ":" s = false → before_colon (s +:+ ":" +:+ t) = s.
Proof.
  induction s as [|c s IH]; [done|]. rewrite append_cons.
  cbn [str_in before_colon].
  destruct (Ascii.eqb_spec c ":") as [->|Hc].
  - by destruct s.
  - intros [_ H]%orb_false_iff. by rewrite IH.
Qed.

Section save_data_properties.
Variable repr : value → string.
Variable float : Type.
Variable float_of_stripped : string → option float.
Variable round_mean : list float → float.

Lemma fold_rows_map (data : list paper_data) (rows : list (csv_row float)) :
  fold_left
    (λ csv_data paper,
       csv_data ++ [csv_row_of repr float float_of_stripped round_mean paper])
    data rows =
  rows ++ map (csv_row_of repr float float_of_stripped round_mean) data.
Proof.
  revert rows. induction data as [|paper data IH]; intros rows; simpl.
  - by rewrite app_nil_r.
  - by rewrite IH, <- app_assoc.
Qed.

Lemma fold_ratings_omap (reviews : list review_data) (ratings : list float) :
  fold_left
    (λ ratings review,
       match rating_number repr float float_of_stripped review with
       | Some rating_num => ratings ++ [rating_num]
       | None => ratings
       end)
    reviews ratings =
  ratings ++ omap (rating_number repr float float_of_stripped) reviews.
Proof.
  revert ratings. induction reviews as [|r reviews IH]; intros ratings; simpl.
  - by rewrite app_nil_r.
  - rewrite IH. destruct (rating_number _ _ _ r); simpl; [|done].
    by rewrite <- app_assoc.
Qed.

Lemma paper_ratings_omap (reviews : list review_data) :
  paper_ratings repr float float_of_stripped reviews =
  omap (rating_number repr float float_of_stripped) reviews.
Proof. unfold paper_ratings. by rewrite fold_ratings_omap. Qed.

Lemma omap_filter_parsed (reviews : list review_data) :
  omap (rating_number repr float float_of_stripped)
    (filter (λ r, is_Some (rating_number repr float float_of_stripped r)) reviews) =
  omap (rating_number repr float float_of_stripped) reviews.
Proof.
  induction reviews as [|r reviews IH]; [done|].
  destruct (rating_number repr float float_of_stripped r) eqn:E.
  - rewrite filter_cons_True by (by rewrite E). csimpl. by rewrite E, IH.
  - rewrite filter_cons_False by (rewrite E; by intros [? ?]).
    csimpl. by rewrite E.
Qed.

(** X17. [save_data] writes nothing and returns nothing for an empty list;
    otherwise it writes two files with different names, first the JSON dump
    of the data and then the summary table, which has one row per paper, in
    the order of the papers. *)
Theorem save_data_files (data : list paper_data) (year : Z) (accepted_only : bool) :
  (save_data repr float float_of_stripped round_mean data year accepted_only =
     ([], None) ↔ data = []) ∧
  (data ≠ [] →
   ∃ rows,
     save_data repr float float_of_stripped round_mean data year accepted_only =
       ([ (json_filename year accepted_only, JsonDump float data);
          (csv_filename year accepted_only, CsvTable float rows) ], Some rows) ∧
     rows = map (csv_row_of repr float float_of_stripped round_mean) data ∧
     map (cr_paper_id float) rows = map pd_paper_id data ∧
     json_filename year accepted_only ≠ csv_filename year accepted_only).
Proof.
  split.
  - destruct data; [by split|].
    split; [intros H; unfold save_data in H; discriminate H | discriminate].
  - destruct data as [|paper data]; [done|]. intros _.
    eexists. split; [reflexivity|]. rewrite fold_rows_map. simpl.
    split; [done|]. split.
    + f_equal. induction data as [|p data IH]; [done|]. simpl. by rewrite IH.
    + unfold json_filename, csv_filename. intros H.
      apply append_inv_head, append_inv_head in H. discriminate H.
Qed.

(** X18. A file name of [save_data] names its year and its mode: two calls
    write to the same JSON file, or to the same CSV file, only for the same
    year and the same accepted-only flag, and a JSON file is never a CSV
    file. *)
Theorem save_data_names_inj (y1 y2 : Z) (a1 a2 : bool) :
  (json_filename y1 a1 = json_filename y2 a2 → y1 = y2 ∧ a1 = a2) ∧
  (csv_filename y1 a1 = csv_filename y2 a2 → y1 = y2 ∧ a1 = a2) ∧
  json_filename y1 a1 ≠ csv_filename y2 a2.
Proof.
  unfold json_filename, csv_filename. split; [|split].
  - intros H. apply append_inv_head in H.
    apply (year_text_inj "_") in H as [-> H]; [|done].
    split; [done|]. destruct a1, a2; done.
  - intros H. apply append_inv_head in H.
    apply (year_text_inj "_") in H as [-> H]; [|done].
    split; [done|]. destruct a1, a2; done.
  - intros H. apply append_inv_head in H.
    apply (year_text_inj "_") in H as [_ H]; [|done]. destruct a1, a2; done.
Qed.

(** X19. The average rating of a paper: a review whose rating is empty or
    does not parse is skipped, only the text before the first colon of a
    rating is parsed, and there is no average exactly when no review gives a
    number. *)
Theorem avg_rating_skips_unparsed (reviews : list review_data) :
  (avg_rating repr float float_of_stripped round_mean reviews = None ↔
   Forall (λ r, rating_number repr float float_of_stripped r = None) reviews) ∧
  avg_rating repr float float_of_stripped round_mean reviews =
    avg_rating repr float float_of_stripped round_mean
      (filter (λ r, is_Some (rating_number repr float float_of_stripped r)) reviews) ∧
  (∀ r s t, rv_rating r = VStr (s +:+ ":" +:+ t) → str_in ":" s = false →
            rating_number repr float float_of_stripped r = float_of_stripped s) ∧
  (∀ r s, rv_rating r = VStr s → s ≠ "" → str_in ":" s = false →
          rating_number repr float float_of_stripped r = float_of_stripped s).
Proof.
  unfold avg_rating. rewrite !paper_ratings_omap. repeat split.
  - intros H. induction reviews as [|r reviews IH]; [done|]. simpl in H.
    destruct (rating_number _ _ _ r) eqn:E; simpl in H; [done|].
    constructor; [done|]. by apply IH.
  - intros H. induction H as [|r reviews Hr _ IH]; [done|]. simpl.
    by rewrite Hr.
  - by rewrite omap_filter_parsed.
  - intros r s t Hr Hs. unfold rating_number. rewrite Hr. simpl.
    rewrite before_colon_app by done.
    destruct s as [|c s]; [done|]. by rewrite append_cons.
  - intros r s Hr Hne Hs. unfold rating_number. rewrite Hr. simpl.
    rewrite before_colon_no_colon by done.
    by destruct s.
Qed.
End save_data_properties.

Lemma save_data_files_witness :
  ∃ rows,
    save_data Scripted.no_repr nat digit_of_stripped floor_mean [record_A] 2024 true =
      ([ (json_filename 2024 true, JsonDump nat [record_A]);
         (csv_filename 2024 true, CsvTable nat rows) ], Some rows) ∧
    rows = map (csv_row_of Scripted.no_repr nat digit_of_stripped floor_mean)
             [record_A] ∧
    map (cr_paper_id nat) rows = map pd_paper_id [record_A] ∧
    json_filename 2024 true ≠ csv_filename 2024 true.
Proof.
  apply (proj2 (save_data_files Scripted.no_repr nat digit_of_stripped floor_mean
                  [record_A] 2024 true)).
  discriminate.
Defined.

Lemma save_data_names_inj_witness : 2023%Z = 2023%Z ∧ true = true.
Proof.
  apply (proj1 (save_data_names_inj 2023 2023 true true)). reflexivity.
Defined.

Lemma avg_rating_skips_unparsed_witness :
  rating_number Scripted.no_repr nat digit_of_stripped weak_accept_review = Some 6.
Proof.
  destruct (avg_rating_skips_unparsed Scripted.no_repr nat digit_of_stripped
              floor_mean [weak_accept_review]) as (_ & _ & H & _).
  rewrite (H weak_accept_review "6" " Weak Accept"); reflexivity.
Defined.

Section main_properties.
Context {W C : Type}.
Variable api : openreview_api W C.
Variable repr : value → string.
Variable float : Type.
Variable float_of_stripped : string → option float.
Variable round_mean : list float → float.

(** X20. The program entry, which crawls 2024 for accepted papers only:
    when the crawl raises, or returns no paper, no file is written (the
    failure propagates, or the exit status is 1); otherwise exactly the two
    files of the accepted papers of 2024 are written, and every paper in
    them has a decision that [is_accepted_paper] accepts. *)
Theorem main_saves_only_accepted (w : W) :
  match main repr float float_of_stripped round_mean api w with
  | (Raise e, w') =>
      crawl_iclr_papers_and_reviews api repr 2024 true w = (Raise e, w')
  | (Ok (NoData _), w') =>
      crawl_iclr_papers_and_reviews api repr 2024 true w = (Ok [], w')
  | (Ok (Saved _ files df), w') =>
      ∃ data,
        data ≠ [] ∧
        crawl_iclr_papers_and_reviews api repr 2024 true w = (Ok data, w') ∧
        files =
          [ ("iclr_2024_papers_reviews_accepted.json", JsonDump float data);
            ("iclr_2024_papers_summary_accepted.csv",
             CsvTable float
               (map (csv_row_of repr float float_of_stripped round_mean) data)) ] ∧
        df = Some (map (csv_row_of repr float float_of_stripped round_mean) data) ∧
        Forall (λ pd, is_accepted_paper repr (pd_decision pd) = true) data
  end.
Proof.
  unfold main, bind, YEAR, ACCEPTED_ONLY.
  destruct (crawl_iclr_papers_and_reviews api repr 2024 true w)
    as [[data|e] w'] eqn:Hc; [|done].
  destruct data as [|pd data]; [done|].
  unfold save_data, ret. exists (pd :: data).
  split; [done|]. split; [done|]. rewrite fold_rows_map.
  split; [done|]. split; [done|].
  apply (crawl_Forall api repr _ 2024 true w _ w'); [|done].
  by intros client ver paper w0 pd0 w0' _ Hk.
Qed.
End main_properties.
